(** * AdSimulator: the projection engine of the advertising simulator

    A shallow embedding of the computations of
    [src/components/AdSimulator.tsx]:

    - [calculate], the single-period calculator run by the component's
      effect on every change of [inputs];
    - [calculateCompoundEffect], the month-by-month compounding projection;
    - the two event handlers and the rounding of [formatNumber].

    Numbers.  The source computes on IEEE binary64 numbers.  The main model
    takes a TypeScript [number] as an exact rational in canonical form
    ([Qc]): the control flow, the guards and the order of the operations
    are those of the source, but no product or sum is rounded and nothing
    overflows.  In it division is a checked operation that reports
    [NonFinite] on a zero denominator, the one way the source leaves the
    finite numbers without rounding, and both computations live in a small
    error monad.

    A property is stated here as a property of the code only when it does
    not rest on the laws of exact arithmetic: it copies values, tests
    guards, or repeats the operations of the source in the order of the
    source.  The projection loop is also given on primitive floats
    ([Binary64]), where the doubles of the source are computed by the
    kernel; the claims that fail by rounding are refuted there. *)

From Stdlib Require Import ZArith QArith Qcanon Qround List Bool Lia.
From Stdlib Require Import PrimFloat.
Import ListNotations.

Local Open Scope Qc_scope.

(** ** Numbers *)

Definition ofZ (z : Z) : Qc := Q2Qc (inject_Z z).
Definition ofNat (n : nat) : Qc := ofZ (Z.of_nat n).

Notation "'100'" := (ofZ 100) : Qc_scope.

(** The comparisons of the source, as boolean tests. *)
Definition eqb (x y : Qc) : bool := Qeq_bool x y.      (* x === y *)
Definition leb (x y : Qc) : bool := Qle_bool x y.      (* x <= y *)
Definition gtb (x y : Qc) : bool := negb (Qle_bool x y). (* x > y *)

Infix "=?" := eqb (at level 70, no associativity) : Qc_scope.
Infix "<=?" := leb (at level 70, no associativity) : Qc_scope.
Infix ">?" := gtb (at level 70, no associativity) : Qc_scope.

(** ** Outcomes *)

Inductive outcome (A : Type) : Type :=
| Ok (a : A)
| NonFinite      (* a division by zero: Infinity or NaN in the source *)
| OutOfFuel.     (* the loop model ran out of fuel *)

Arguments Ok {A} a.
Arguments NonFinite {A}.
Arguments OutOfFuel {A}.

Definition bind {A B : Type} (c : outcome A) (k : A -> outcome B) : outcome B :=
  match c with
  | Ok a => k a
  | NonFinite => NonFinite
  | OutOfFuel => OutOfFuel
  end.

Notation "x <- c ;; k" := (bind c (fun x => k))
  (at level 61, c at next level, right associativity).

(** [x / y] of the source. *)
Definition div (x y : Qc) : outcome Qc :=
  if y =? 0 then NonFinite else Ok (x / y).

Infix "//" := div (at level 40, left associativity) : Qc_scope.

(** ** Data model *)

(* interface CompoundDataItem; its fields share names with those of the
   other two interfaces, hence the name space. *)
Module CompoundDataItem.

Record t : Type := mk {
  month : Qc;
  adCost : Qc;
  revenue : Qc;
  profit : Qc;
  cumulativeAdCost : Qc;
  cumulativeRevenue : Qc;
  cumulativeProfit : Qc
}.

End CompoundDataItem.

(* interface InputValues *)
Record InputValues : Type := mkInputs {
  adCost : Qc;
  productPrice : Qc;
  roas : Qc;
  conversionRate : Qc;
  profitMargin : Qc;
  affiliateCommission : Qc;
  seatCpa : Qc;
  appointments : Qc;
  operationDays : Qc;
  months : Qc;
  firstMonthFree : bool
}.

(* interface ResultValues *)
Record ResultValues : Type := mkResults {
  revenue : Qc;
  profit : Qc;
  profitBeforeAdCost : Qc;
  numberOfSales : Qc;
  cpa : Qc;
  roasActual : Qc;
  seatCount : Qc;
  dailyCost : Qc;
  affiliateAmount : Qc;
  profitAmount : Qc
}.

(** The initial value of [inputs] in the component. *)
Definition defaultInputs : InputValues :=
  {| adCost := ofZ 500000;
     productPrice := ofZ 600000;
     roas := ofZ 300;
     conversionRate := ofZ 20;
     profitMargin := ofZ 60;
     affiliateCommission := ofZ 20;
     seatCpa := ofZ 60000;
     appointments := ofZ 8;
     operationDays := ofZ 30;
     months := ofZ 12;
     firstMonthFree := true |}.

(** ** The single-period calculator *)

(** The value [calculate] passes to [setResults]. *)
Definition calculate (inputs : InputValues) : outcome ResultValues :=
  revenue <- (adCost inputs * roas inputs) // 100 ;;
  numberOfSales <-
    (if productPrice inputs >? 0 then revenue // productPrice inputs else Ok 0) ;;
  cpa <- (if numberOfSales >? 0 then adCost inputs // numberOfSales else Ok 0) ;;
  profitAmount <- (revenue * profitMargin inputs) // 100 ;;
  affiliateAmount <- (profitAmount * affiliateCommission inputs) // 100 ;;
  let profitBeforeAdCost := profitAmount - affiliateAmount in
  let profit :=
    if firstMonthFree inputs
    then profitBeforeAdCost
    else profitBeforeAdCost - adCost inputs in
  roasActual <-
    (if adCost inputs >? 0
     then (q <- revenue // adCost inputs ;; Ok (q * 100))
     else Ok 0) ;;
  seatCount <- (if seatCpa inputs >? 0 then adCost inputs // seatCpa inputs else Ok 0) ;;
  dailyCost <-
    (if operationDays inputs >? 0 then adCost inputs // operationDays inputs else Ok 0) ;;
  Ok {| revenue := revenue;
        profit := profit;
        profitBeforeAdCost := profitBeforeAdCost;
        numberOfSales := numberOfSales;
        cpa := cpa;
        roasActual := roasActual;
        seatCount := seatCount;
        dailyCost := dailyCost;
        affiliateAmount := affiliateAmount;
        profitAmount := profitAmount |}.

(** ** The compounding projection *)

(** The variables the loop of [calculateCompoundEffect] mutates. *)
Record LoopState : Type := mkState {
  data : list CompoundDataItem.t;
  cumulativeAdCost : Qc;
  cumulativeRevenue : Qc;
  cumulativeProfit : Qc;
  currentAdCost : Qc
}.

Definition initialState (inputs : InputValues) : LoopState :=
  {| data := [];
     cumulativeAdCost := 0;
     cumulativeRevenue := 0;
     cumulativeProfit := 0;
     currentAdCost := adCost inputs |}.

(** One pass through the body of the [for] loop, at counter [month]. *)
Definition loopBody (inputs : InputValues) (month : Qc) (st : LoopState)
  : outcome LoopState :=
  if month =? 0 then
    (* data.push({...}); continue *)
    Ok {| data := data st ++
            [ {| CompoundDataItem.month := month;
                 CompoundDataItem.adCost := currentAdCost st;
                 CompoundDataItem.revenue := 0;
                 CompoundDataItem.profit := 0;
                 CompoundDataItem.cumulativeAdCost := cumulativeAdCost st;
                 CompoundDataItem.cumulativeRevenue := 0;
                 CompoundDataItem.cumulativeProfit := 0 |} ];
          cumulativeAdCost := cumulativeAdCost st;
          cumulativeRevenue := cumulativeRevenue st;
          cumulativeProfit := cumulativeProfit st;
          currentAdCost := currentAdCost st |}
  else
    monthlyRevenue <- (currentAdCost st * roas inputs) // 100 ;;
    marginRate <- profitMargin inputs // 100 ;;
    let profitAmount := monthlyRevenue * marginRate in
    commissionRate <- affiliateCommission inputs // 100 ;;
    let affiliateAmount := profitAmount * commissionRate in
    let monthlyProfitBeforeAdCost := profitAmount - affiliateAmount in
    let netProfit :=
      if (month =? 1) && firstMonthFree inputs
      then monthlyProfitBeforeAdCost
      else monthlyProfitBeforeAdCost - currentAdCost st in
    let cumulativeAdCost' :=
      if negb ((month =? 1) && firstMonthFree inputs)
      then cumulativeAdCost st + currentAdCost st
      else cumulativeAdCost st in
    let cumulativeRevenue' := cumulativeRevenue st + monthlyRevenue in
    let cumulativeProfit' := cumulativeProfit st + netProfit in
    Ok {| data := data st ++
            [ {| CompoundDataItem.month := month;
                 CompoundDataItem.adCost := currentAdCost st;
                 CompoundDataItem.revenue := monthlyRevenue;
                 CompoundDataItem.profit := monthlyProfitBeforeAdCost;
                 CompoundDataItem.cumulativeAdCost := cumulativeAdCost';
                 CompoundDataItem.cumulativeRevenue := cumulativeRevenue';
                 CompoundDataItem.cumulativeProfit := cumulativeProfit' |} ];
          cumulativeAdCost := cumulativeAdCost';
          cumulativeRevenue := cumulativeRevenue';
          cumulativeProfit := cumulativeProfit';
          currentAdCost :=
            if monthlyProfitBeforeAdCost >? 0
            then monthlyProfitBeforeAdCost
            else adCost inputs |}.

(** [for (let month = ...; month <= inputs.months; month++) { ... }],
    entered with the counter at [month]. *)
Fixpoint forLoop (fuel : nat) (inputs : InputValues) (month : Qc)
    (st : LoopState) : outcome LoopState :=
  match fuel with
  | O => OutOfFuel
  | S fuel' =>
      if month <=? months inputs then
        st' <- loopBody inputs month st ;;
        forLoop fuel' inputs (month + 1) st'
      else Ok st
  end.

(** Enough fuel for every horizon: the loop tests its condition once more
    than it runs its body. *)
Definition loopFuel (inputs : InputValues) : nat :=
  (Z.to_nat (Qfloor (months inputs)) + 2)%nat.

(** The value [calculateCompoundEffect] passes to [setCompoundData].  The
    parameter [monthlyProfit] is not read by the source. *)
Definition calculateCompoundEffect (inputs : InputValues) (monthlyProfit : Qc)
  : outcome (list CompoundDataItem.t) :=
  st <- forLoop (loopFuel inputs) inputs 0 (initialState inputs) ;;
  Ok (data st).

(** The effect run on every change of [inputs]: [calculate] sets the
    results and then calls [calculateCompoundEffect] with the net profit. *)
Definition runEffect (inputs : InputValues)
  : outcome (ResultValues * list CompoundDataItem.t) :=
  results <- calculate inputs ;;
  compoundData <- calculateCompoundEffect inputs (profit results) ;;
  Ok (results, compoundData).

(** * Closed forms

    The results of the two computations with the divisions carried out;
    [calculate_ok], [loopBody_ok] and [calculateCompoundEffect_ok] below
    prove that the code computes them. *)

(** The results of [calculate], with the divisions carried out. *)
Definition resultsOf (inputs : InputValues) : ResultValues :=
  let revenue := adCost inputs * roas inputs / 100 in
  let numberOfSales :=
    if productPrice inputs >? 0 then revenue / productPrice inputs else 0 in
  let profitAmount := revenue * profitMargin inputs / 100 in
  let affiliateAmount := profitAmount * affiliateCommission inputs / 100 in
  let profitBeforeAdCost := profitAmount - affiliateAmount in
  {| revenue := revenue;
     profit :=
       if firstMonthFree inputs
       then profitBeforeAdCost
       else profitBeforeAdCost - adCost inputs;
     profitBeforeAdCost := profitBeforeAdCost;
     numberOfSales := numberOfSales;
     cpa := if numberOfSales >? 0 then adCost inputs / numberOfSales else 0;
     roasActual :=
       if adCost inputs >? 0 then revenue / adCost inputs * 100 else 0;
     seatCount :=
       if seatCpa inputs >? 0 then adCost inputs / seatCpa inputs else 0;
     dailyCost :=
       if operationDays inputs >? 0
       then adCost inputs / operationDays inputs else 0;
     affiliateAmount := affiliateAmount;
     profitAmount := profitAmount |}.

(** What one month yields on a spend of [spend]: the revenue and the
    profit before the ad cost, with the divisions by 100 carried out. *)
Definition monthlyRevenueOf (inputs : InputValues) (spend : Qc) : Qc :=
  spend * roas inputs / 100.

Definition monthlyProfitOf (inputs : InputValues) (spend : Qc) : Qc :=
  monthlyRevenueOf inputs spend * (profitMargin inputs / 100)
  - monthlyRevenueOf inputs spend * (profitMargin inputs / 100)
    * (affiliateCommission inputs / 100).

(** The test [month === 1 && inputs.firstMonthFree] at the [k]-th pass. *)
Definition waived (inputs : InputValues) (k : nat) : bool :=
  Nat.eqb k 1 && firstMonthFree inputs.

(** The row pushed by the pass at month [k] entered in state [st]. *)
Definition itemAt (inputs : InputValues) (k : nat) (st : LoopState)
  : CompoundDataItem.t :=
  match k with
  | O =>
      {| CompoundDataItem.month := ofNat k;
         CompoundDataItem.adCost := currentAdCost st;
         CompoundDataItem.revenue := 0;
         CompoundDataItem.profit := 0;
         CompoundDataItem.cumulativeAdCost := cumulativeAdCost st;
         CompoundDataItem.cumulativeRevenue := 0;
         CompoundDataItem.cumulativeProfit := 0 |}
  | S _ =>
      {| CompoundDataItem.month := ofNat k;
         CompoundDataItem.adCost := currentAdCost st;
         CompoundDataItem.revenue := monthlyRevenueOf inputs (currentAdCost st);
         CompoundDataItem.profit := monthlyProfitOf inputs (currentAdCost st);
         CompoundDataItem.cumulativeAdCost :=
           if negb (waived inputs k)
           then cumulativeAdCost st + currentAdCost st
           else cumulativeAdCost st;
         CompoundDataItem.cumulativeRevenue :=
           cumulativeRevenue st + monthlyRevenueOf inputs (currentAdCost st);
         CompoundDataItem.cumulativeProfit :=
           cumulativeProfit st +
           (if waived inputs k
            then monthlyProfitOf inputs (currentAdCost st)
            else monthlyProfitOf inputs (currentAdCost st) - currentAdCost st) |}
  end.

(** The state in which that pass leaves the loop. *)
Definition stepState (inputs : InputValues) (k : nat) (st : LoopState)
  : LoopState :=
  match k with
  | O =>
      {| data := data st ++ [itemAt inputs k st];
         cumulativeAdCost := cumulativeAdCost st;
         cumulativeRevenue := cumulativeRevenue st;
         cumulativeProfit := cumulativeProfit st;
         currentAdCost := currentAdCost st |}
  | S _ =>
      {| data := data st ++ [itemAt inputs k st];
         cumulativeAdCost :=
           CompoundDataItem.cumulativeAdCost (itemAt inputs k st);
         cumulativeRevenue :=
           CompoundDataItem.cumulativeRevenue (itemAt inputs k st);
         cumulativeProfit :=
           CompoundDataItem.cumulativeProfit (itemAt inputs k st);
         currentAdCost :=
           if monthlyProfitOf inputs (currentAdCost st) >? 0
           then monthlyProfitOf inputs (currentAdCost st)
           else adCost inputs |}
  end.

(** The state on entry to the pass at month [k]. *)
Fixpoint stateAt (inputs : InputValues) (k : nat) : LoopState :=
  match k with
  | O => initialState inputs
  | S k' => stepState inputs k' (stateAt inputs k')
  end.

(** The number of passes: none when [months] is negative, and otherwise
    one for every integer from 0 up to [months]. *)
Definition passes (inputs : InputValues) : nat :=
  if 0 <=? months inputs then S (Z.to_nat (Qfloor (months inputs))) else O.

(** The cumulative profit [p] is the cumulative revenue [r], less margin
    and commission, less the cumulative ad cost [c]. *)
Definition consistent (inputs : InputValues) (p r c : Qc) : Prop :=
  p = r * (profitMargin inputs / 100) * (1 - affiliateCommission inputs / 100)
      - c.

(** Two inputs agree on every field but [conversionRate] and
    [appointments]. *)
Definition agreeOnLiveFields (a b : InputValues) : Prop :=
  adCost a = adCost b /\
  productPrice a = productPrice b /\
  roas a = roas b /\
  profitMargin a = profitMargin b /\
  affiliateCommission a = affiliateCommission b /\
  seatCpa a = seatCpa b /\
  operationDays a = operationDays b /\
  months a = months b /\
  firstMonthFree a = firstMonthFree b.

(** ** Sample inputs *)

(** Inputs that differ from the defaults in the horizon only. *)
Definition withMonths (q : Qc) : InputValues :=
  {| adCost := adCost defaultInputs;
     productPrice := productPrice defaultInputs;
     roas := roas defaultInputs;
     conversionRate := conversionRate defaultInputs;
     profitMargin := profitMargin defaultInputs;
     affiliateCommission := affiliateCommission defaultInputs;
     seatCpa := seatCpa defaultInputs;
     appointments := appointments defaultInputs;
     operationDays := operationDays defaultInputs;
     months := q;
     firstMonthFree := firstMonthFree defaultInputs |}.

(** Inputs that differ from the defaults in the horizon and in the ROAS. *)
Definition withMonthsRoas (q roas' : Qc) : InputValues :=
  {| adCost := adCost defaultInputs;
     productPrice := productPrice defaultInputs;
     roas := roas';
     conversionRate := conversionRate defaultInputs;
     profitMargin := profitMargin defaultInputs;
     affiliateCommission := affiliateCommission defaultInputs;
     seatCpa := seatCpa defaultInputs;
     appointments := appointments defaultInputs;
     operationDays := operationDays defaultInputs;
     months := q;
     firstMonthFree := firstMonthFree defaultInputs |}.

(** The default inputs with a negative baseline ad cost, which the number
    input accepts. *)
Definition negativeBaseline : InputValues :=
  {| adCost := - ofZ 500000;
     productPrice := productPrice defaultInputs;
     roas := roas defaultInputs;
     conversionRate := conversionRate defaultInputs;
     profitMargin := profitMargin defaultInputs;
     affiliateCommission := affiliateCommission defaultInputs;
     seatCpa := seatCpa defaultInputs;
     appointments := appointments defaultInputs;
     operationDays := operationDays defaultInputs;
     months := months defaultInputs;
     firstMonthFree := firstMonthFree defaultInputs |}.

(** Inputs with every denominator at zero. *)
Definition degenerateInputs : InputValues :=
  {| adCost := 0;
     productPrice := 0;
     roas := ofZ 300;
     conversionRate := ofZ 20;
     profitMargin := ofZ 60;
     affiliateCommission := ofZ 20;
     seatCpa := 0;
     appointments := ofZ 8;
     operationDays := 0;
     months := ofZ 12;
     firstMonthFree := false |}.

(** The default inputs with other values in the two dead fields. *)
Definition otherDeadFields : InputValues :=
  {| adCost := adCost defaultInputs;
     productPrice := productPrice defaultInputs;
     roas := roas defaultInputs;
     conversionRate := ofZ 75;
     profitMargin := profitMargin defaultInputs;
     affiliateCommission := affiliateCommission defaultInputs;
     seatCpa := seatCpa defaultInputs;
     appointments := 0;
     operationDays := operationDays defaultInputs;
     months := months defaultInputs;
     firstMonthFree := firstMonthFree defaultInputs |}.

(** ** The arithmetic of the source: binary64

    The operations of the source on primitive floats: first two
    expressions of the default scenario, then the whole projection
    loop. *)

Module Binary64.

(* lines 165-172 of calculateCompoundEffect: the revenue and the profit
   before ad cost of one month *)
Definition monthlyFigures
    (currentAdCost roas profitMargin affiliateCommission : float)
  : float * float :=
  let monthlyRevenue := (currentAdCost * roas / 100)%float in
  let profitAmount := (monthlyRevenue * (profitMargin / 100))%float in
  let affiliateAmount := (profitAmount * (affiliateCommission / 100))%float in
  (monthlyRevenue, (profitAmount - affiliateAmount)%float).

(* line 116 of calculate *)
Definition seatCount (adCost seatCpa : float) : float :=
  if PrimFloat.ltb 0 seatCpa then (adCost / seatCpa)%float else 0%float.

(** The projection itself in binary64: the same loop as
    [calculateCompoundEffect] above, on primitive floats.  Division needs
    no check here, for a float may be infinite or [NaN]; [x > y] is
    [ltb y x] and [x === y] is [eqb x y], both false on [NaN]. *)

(* interface CompoundDataItem *)
Module CompoundDataItem.

Record t : Type := mk {
  month : float;
  adCost : float;
  revenue : float;
  profit : float;
  cumulativeAdCost : float;
  cumulativeRevenue : float;
  cumulativeProfit : float
}.

End CompoundDataItem.

(* interface InputValues *)
Record InputValues : Type := mkInputs {
  adCost : float;
  productPrice : float;
  roas : float;
  conversionRate : float;
  profitMargin : float;
  affiliateCommission : float;
  seatCpa : float;
  appointments : float;
  operationDays : float;
  months : float;
  firstMonthFree : bool
}.

(** The initial value of [inputs] in the component. *)
Definition defaultInputs : InputValues :=
  {| adCost := 500000;
     productPrice := 600000;
     roas := 300;
     conversionRate := 20;
     profitMargin := 60;
     affiliateCommission := 20;
     seatCpa := 60000;
     appointments := 8;
     operationDays := 30;
     months := 12;
     firstMonthFree := true |}.

Record LoopState : Type := mkState {
  data : list CompoundDataItem.t;
  cumulativeAdCost : float;
  cumulativeRevenue : float;
  cumulativeProfit : float;
  currentAdCost : float
}.

Definition initialState (inputs : InputValues) : LoopState :=
  {| data := [];
     cumulativeAdCost := 0;
     cumulativeRevenue := 0;
     cumulativeProfit := 0;
     currentAdCost := adCost inputs |}.

(** One pass through the body of the [for] loop, at counter [month]. *)
Definition loopBody (inputs : InputValues) (month : float) (st : LoopState)
  : LoopState :=
  if PrimFloat.eqb month 0 then
    (* data.push({...}); continue *)
    {| data := data st ++
         [ {| CompoundDataItem.month := month;
              CompoundDataItem.adCost := currentAdCost st;
              CompoundDataItem.revenue := 0;
              CompoundDataItem.profit := 0;
              CompoundDataItem.cumulativeAdCost := cumulativeAdCost st;
              CompoundDataItem.cumulativeRevenue := 0;
              CompoundDataItem.cumulativeProfit := 0 |} ];
       cumulativeAdCost := cumulativeAdCost st;
       cumulativeRevenue := cumulativeRevenue st;
       cumulativeProfit := cumulativeProfit st;
       currentAdCost := currentAdCost st |}
  else
    let monthlyRevenue := (currentAdCost st * roas inputs / 100)%float in
    let profitAmount := (monthlyRevenue * (profitMargin inputs / 100))%float in
    let affiliateAmount :=
      (profitAmount * (affiliateCommission inputs / 100))%float in
    let monthlyProfitBeforeAdCost := (profitAmount - affiliateAmount)%float in
    let netProfit :=
      if PrimFloat.eqb month 1 && firstMonthFree inputs
      then monthlyProfitBeforeAdCost
      else (monthlyProfitBeforeAdCost - currentAdCost st)%float in
    let cumulativeAdCost' :=
      if negb (PrimFloat.eqb month 1 && firstMonthFree inputs)
      then (cumulativeAdCost st + currentAdCost st)%float
      else cumulativeAdCost st in
    let cumulativeRevenue' := (cumulativeRevenue st + monthlyRevenue)%float in
    let cumulativeProfit' := (cumulativeProfit st + netProfit)%float in
    {| data := data st ++
         [ {| CompoundDataItem.month := month;
              CompoundDataItem.adCost := currentAdCost st;
              CompoundDataItem.revenue := monthlyRevenue;
              CompoundDataItem.profit := monthlyProfitBeforeAdCost;
              CompoundDataItem.cumulativeAdCost := cumulativeAdCost';
              CompoundDataItem.cumulativeRevenue := cumulativeRevenue';
              CompoundDataItem.cumulativeProfit := cumulativeProfit' |} ];
       cumulativeAdCost := cumulativeAdCost';
       cumulativeRevenue := cumulativeRevenue';
       cumulativeProfit := cumulativeProfit';
       currentAdCost :=
         if PrimFloat.ltb 0 monthlyProfitBeforeAdCost
         then monthlyProfitBeforeAdCost
         else adCost inputs |}.

(** [for (let month = ...; month <= inputs.months; month++) { ... }],
    entered with the counter at [month]; [None] when the fuel runs out. *)
Fixpoint forLoop (fuel : nat) (inputs : InputValues) (month : float)
    (st : LoopState) : option LoopState :=
  match fuel with
  | O => None
  | S fuel' =>
      if PrimFloat.leb month (months inputs) then
        forLoop fuel' inputs (month + 1)%float (loopBody inputs month st)
      else Some st
  end.

(** The value [calculateCompoundEffect] passes to [setCompoundData], when
    the loop ends within [fuel] tests of its condition. *)
Definition calculateCompoundEffect (fuel : nat) (inputs : InputValues)
    (monthlyProfit : float) : option (list CompoundDataItem.t) :=
  option_map data (forLoop fuel inputs 0 (initialState inputs)).

End Binary64.

(** * The rest of the component *)

(** ** Event handlers *)

(** The [name] attributes of the ten inputs whose [onChange] is
    [handleInputChange]. *)
Inductive FieldName : Type :=
| Name_adCost
| Name_productPrice
| Name_roas
| Name_conversionRate
| Name_profitMargin
| Name_affiliateCommission
| Name_seatCpa
| Name_appointments
| Name_operationDays
| Name_months.

Definition FieldName_eqb (a b : FieldName) : bool :=
  match a, b with
  | Name_adCost, Name_adCost
  | Name_productPrice, Name_productPrice
  | Name_roas, Name_roas
  | Name_conversionRate, Name_conversionRate
  | Name_profitMargin, Name_profitMargin
  | Name_affiliateCommission, Name_affiliateCommission
  | Name_seatCpa, Name_seatCpa
  | Name_appointments, Name_appointments
  | Name_operationDays, Name_operationDays
  | Name_months, Name_months => true
  | _, _ => false
  end.

(** [inputs[name]]. *)
Definition getField (name : FieldName) (inputs : InputValues) : Qc :=
  match name with
  | Name_adCost => adCost inputs
  | Name_productPrice => productPrice inputs
  | Name_roas => roas inputs
  | Name_conversionRate => conversionRate inputs
  | Name_profitMargin => profitMargin inputs
  | Name_affiliateCommission => affiliateCommission inputs
  | Name_seatCpa => seatCpa inputs
  | Name_appointments => appointments inputs
  | Name_operationDays => operationDays inputs
  | Name_months => months inputs
  end.

(** [parseFloat(value) || 0].  The result of [parseFloat], the platform's,
    is a parameter: a finite number, or [None] for [NaN] (the value of a
    number input is a valid number or the empty string).  [||] yields its
    right operand when the left one is [NaN] or zero. *)
Definition orZero (parsed : option Qc) : Qc :=
  match parsed with
  | Some v => if v =? 0 then 0 else v
  | None => 0
  end.

(** [handleInputChange]: the state passed to [setInputs], that is
    [{...inputs, [name]: parseFloat(value) || 0}]. *)
Definition handleInputChange (inputs : InputValues) (name : FieldName)
    (parsed : option Qc) : InputValues :=
  let spread n :=
    if FieldName_eqb name n then orZero parsed else getField n inputs in
  {| adCost := spread Name_adCost;
     productPrice := spread Name_productPrice;
     roas := spread Name_roas;
     conversionRate := spread Name_conversionRate;
     profitMargin := spread Name_profitMargin;
     affiliateCommission := spread Name_affiliateCommission;
     seatCpa := spread Name_seatCpa;
     appointments := spread Name_appointments;
     operationDays := spread Name_operationDays;
     months := spread Name_months;
     firstMonthFree := firstMonthFree inputs |}.

(** The [onChange] of the checkbox: the state passed to [setInputs], that
    is [{...inputs, firstMonthFree: e.target.checked}]. *)
Definition onFirstMonthFreeChange (inputs : InputValues) (checked : bool)
  : InputValues :=
  {| adCost := adCost inputs;
     productPrice := productPrice inputs;
     roas := roas inputs;
     conversionRate := conversionRate inputs;
     profitMargin := profitMargin inputs;
     affiliateCommission := affiliateCommission inputs;
     seatCpa := seatCpa inputs;
     appointments := appointments inputs;
     operationDays := operationDays inputs;
     months := months inputs;
     firstMonthFree := checked |}.

(** ** Display *)

(** [Math.round(num)]: the nearest integer, a tie going to the larger one.
    It is the amount [formatNumber] hands to [Intl.NumberFormat]; the
    digit grouping of that library is not modelled. *)
Definition Math_round (num : Qc) : Z := Qfloor (num + Q2Qc (1 # 2))%Qc.

(** ** Notions used in the statements *)

(** Two inputs agree on the fields the projection loop reads, the horizon
    apart. *)
Definition agreeOnLoopFields (a b : InputValues) : Prop :=
  adCost a = adCost b /\
  roas a = roas b /\
  profitMargin a = profitMargin b /\
  affiliateCommission a = affiliateCommission b /\
  firstMonthFree a = firstMonthFree b.

(** * Properties *)

(** ** Numbers *)

Lemma eqb_true_iff (x y : Qc) : (x =? y) = true <-> x = y.
Proof.
  unfold eqb. rewrite Qeq_bool_iff. split.
  - apply Qc_is_canon.
  - intros ->. reflexivity.
Qed.

Lemma eqb_false_iff (x y : Qc) : (x =? y) = false <-> x <> y.
Proof.
  rewrite <- eqb_true_iff. destruct (x =? y); split; congruence.
Qed.

Lemma leb_true_iff (x y : Qc) : (x <=? y) = true <-> x <= y.
Proof. unfold leb, Qcle. apply Qle_bool_iff. Qed.

Lemma leb_false_iff (x y : Qc) : (x <=? y) = false <-> y < x.
Proof.
  split.
  - intros H. apply Qcnot_le_lt. rewrite <- leb_true_iff. congruence.
  - intros H. apply Qclt_not_le in H. rewrite <- leb_true_iff in H.
    destruct (x <=? y); congruence.
Qed.

Lemma gtb_true_iff (x y : Qc) : (x >? y) = true <-> y < x.
Proof.
  unfold gtb. rewrite negb_true_iff. apply (leb_false_iff x y).
Qed.

Lemma gtb_false_iff (x y : Qc) : (x >? y) = false <-> x <= y.
Proof.
  unfold gtb. rewrite negb_false_iff. apply (leb_true_iff x y).
Qed.

Lemma this_ofZ (z : Z) : (this (ofZ z) == inject_Z z)%Q.
Proof. exact (Qred_correct (inject_Z z)). Qed.

Lemma ofZ_inj (a b : Z) : ofZ a = ofZ b -> a = b.
Proof.
  unfold ofZ. rewrite Q2Qc_eq_iff. apply inject_Z_injective.
Qed.

Lemma ofZ_succ (z : Z) : ofZ (z + 1) = ofZ z + 1.
Proof.
  apply Qc_is_canon. unfold Qcplus, ofZ, Q2Qc. cbn [this].
  rewrite !Qred_correct, inject_Z_plus. reflexivity.
Qed.

Lemma ofZ_le (a : Z) (q : Qc) : ofZ a <= q <-> (a <= Qfloor q)%Z.
Proof.
  unfold Qcle. rewrite this_ofZ. split; intros H.
  - apply Qfloor_resp_le in H. rewrite Qfloor_Z in H. exact H.
  - apply Qle_trans with (inject_Z (Qfloor q)).
    + rewrite <- Zle_Qle. exact H.
    + apply Qfloor_le.
Qed.

Lemma ofNat_succ (k : nat) : ofNat (S k) = ofNat k + 1.
Proof. unfold ofNat. rewrite Nat2Z.inj_succ. apply ofZ_succ. Qed.

Lemma ofNat_eqb_0 (k : nat) : (ofNat k =? 0) = Nat.eqb k 0.
Proof.
  destruct (Nat.eqb_spec k 0) as [-> | Hk].
  - reflexivity.
  - apply eqb_false_iff. intros H. apply Hk.
    apply Nat2Z.inj. apply ofZ_inj. exact H.
Qed.

Lemma ofNat_eqb_1 (k : nat) : (ofNat k =? 1) = Nat.eqb k 1.
Proof.
  destruct (Nat.eqb_spec k 1) as [-> | Hk].
  - reflexivity.
  - apply eqb_false_iff. intros H. apply Hk.
    apply Nat2Z.inj. apply ofZ_inj. exact H.
Qed.

Lemma div_checked (x y : Qc) : y <> 0 -> x // y = Ok (x / y).
Proof.
  intros H. unfold div. apply eqb_false_iff in H. rewrite H. reflexivity.
Qed.

Lemma div_100 (x : Qc) : x // 100 = Ok (x / 100).
Proof. reflexivity. Qed.

(** ** The loop, pass by pass *)

Section Trace.

Variable inputs : InputValues.

(** No pass divides by zero: the body always completes, in [stepState]. *)
Lemma loopBody_ok (k : nat) (st : LoopState) :
  loopBody inputs (ofNat k) st = Ok (stepState inputs k st).
Proof.
  unfold loopBody. rewrite ofNat_eqb_0, ofNat_eqb_1.
  destruct k as [| k]; [reflexivity |].
  cbn [Nat.eqb]. rewrite !div_100. reflexivity.
Qed.

(** Entered at month [k] with the loop test true for the next [n] months
    and false after them, the loop makes [n] passes and stops by its test,
    whatever fuel above [n] it was given. *)
Lemma forLoop_run (n : nat) :
  forall (k fuel : nat),
    (n < fuel)%nat ->
    (forall j, (k <= j < k + n)%nat -> ofNat j <= months inputs) ->
    months inputs < ofNat (k + n) ->
    forLoop fuel inputs (ofNat k) (stateAt inputs k) =
    Ok (stateAt inputs (k + n)).
Proof.
  induction n as [| n IH]; intros k fuel Hfuel Hin Hout.
  - destruct fuel as [| fuel]; [lia |]. cbn [forLoop].
    rewrite Nat.add_0_r in *.
    apply leb_false_iff in Hout. rewrite Hout. reflexivity.
  - destruct fuel as [| fuel]; [lia |]. cbn [forLoop].
    assert (Hk : ofNat k <= months inputs) by (apply Hin; lia).
    apply leb_true_iff in Hk. rewrite Hk, loopBody_ok. cbn [bind].
    rewrite <- ofNat_succ.
    change (stepState inputs k (stateAt inputs k)) with (stateAt inputs (S k)).
    rewrite (IH (S k) fuel).
    + f_equal. f_equal. lia.
    + lia.
    + intros j Hj. apply Hin. lia.
    + replace (S k + n)%nat with (k + S n)%nat by lia. exact Hout.
Qed.

(** The loop test holds at month [j] exactly for the first [passes]
    months. *)
Lemma passes_spec (j : nat) :
  ofNat j <= months inputs <-> (j < passes inputs)%nat.
Proof.
  unfold passes, ofNat. rewrite ofZ_le.
  destruct (0 <=? months inputs) eqn:H0.
  - apply leb_true_iff in H0. apply (ofZ_le 0) in H0. lia.
  - assert (H : ~ (0 <= Qfloor (months inputs))%Z).
    { intros H. apply (ofZ_le 0), leb_true_iff in H.
      change (ofZ 0) with 0 in H. congruence. }
    lia.
Qed.

Lemma passes_lt_loopFuel : (passes inputs < loopFuel inputs)%nat.
Proof.
  unfold passes, loopFuel. destruct (0 <=? months inputs); lia.
Qed.

(** The result of the loop does not depend on the fuel, once there is
    enough of it. *)
Lemma forLoop_enough_fuel (fuel : nat) :
  (passes inputs < fuel)%nat ->
  forLoop fuel inputs 0 (initialState inputs) =
  Ok (stateAt inputs (passes inputs)).
Proof.
  intros Hfuel. apply (forLoop_run (passes inputs) 0 fuel).
  - exact Hfuel.
  - intros j Hj. apply passes_spec. lia.
  - apply Qcnot_le_lt. rewrite passes_spec. cbn [Nat.add]. lia.
Qed.

(** The loop ends, by its own test, after [passes inputs] passes. *)
Lemma forLoop_ok :
  forLoop (loopFuel inputs) inputs 0 (initialState inputs) =
  Ok (stateAt inputs (passes inputs)).
Proof. apply forLoop_enough_fuel, passes_lt_loopFuel. Qed.

Lemma data_stateAt (n : nat) :
  data (stateAt inputs n) =
  map (fun j => itemAt inputs j (stateAt inputs j)) (seq 0 n).
Proof.
  induction n as [| n IH]; [reflexivity |].
  rewrite seq_S, map_app. cbn [stateAt map Nat.add].
  rewrite <- IH. destruct n; reflexivity.
Qed.

Lemma length_data_stateAt (n : nat) : length (data (stateAt inputs n)) = n.
Proof. rewrite data_stateAt, length_map, length_seq. reflexivity. Qed.

Lemma nth_error_data_stateAt (n m : nat) :
  (m < n)%nat ->
  nth_error (data (stateAt inputs n)) m =
  Some (itemAt inputs m (stateAt inputs m)).
Proof.
  intros H. rewrite data_stateAt.
  rewrite (nth_error_map (fun j => itemAt inputs j (stateAt inputs j))
             m (seq 0 n)).
  rewrite nth_error_seq.
  destruct (Nat.ltb_spec m n); [reflexivity | lia].
Qed.

(** The projection terminates normally; its rows are the rows of the
    successive passes. *)
Lemma calculateCompoundEffect_ok (monthlyProfit : Qc) :
  calculateCompoundEffect inputs monthlyProfit =
  Ok (data (stateAt inputs (passes inputs))).
Proof.
  unfold calculateCompoundEffect. rewrite forLoop_ok. reflexivity.
Qed.

End Trace.

Lemma Qfloor_ofZ (z : Z) : Qfloor (ofZ z) = z.
Proof. rewrite this_ofZ. apply Qfloor_Z. Qed.

Lemma ofZ_nonneg (z : Z) : (0 <= z)%Z -> 0 <= ofZ z.
Proof. intros H. apply (ofZ_le 0). rewrite Qfloor_ofZ. exact H. Qed.

Lemma passes_ofNat (inputs : InputValues) (n : nat) :
  months inputs = ofNat n -> passes inputs = S n.
Proof.
  intros H. unfold passes. rewrite H.
  assert (H0 : 0 <= ofNat n) by (apply ofZ_nonneg; lia).
  apply leb_true_iff in H0. rewrite H0.
  unfold ofNat. rewrite Qfloor_ofZ, Nat2Z.id. reflexivity.
Qed.

Lemma passes_negative (inputs : InputValues) :
  months inputs < 0 -> passes inputs = O.
Proof.
  intros H. unfold passes. apply leb_false_iff in H. rewrite H. reflexivity.
Qed.

Lemma passes_nonnegative (inputs : InputValues) :
  0 <= months inputs ->
  passes inputs = Z.to_nat (Qfloor (months inputs) + 1).
Proof.
  intros H. unfold passes. pose proof H as Hb.
  apply leb_true_iff in Hb. rewrite Hb.
  apply (ofZ_le 0) in H. lia.
Qed.

(** ** The claims *)

(** C5, row-count law: when [months] is a non-negative integer [n], the
    projection returns exactly [n + 1] rows, the first of which is the
    sentinel; for [n = 0] this is one row, the sentinel. *)
Theorem row_count (inputs : InputValues) (monthlyProfit : Qc) (n : nat) :
  months inputs = ofNat n ->
  exists rows,
    calculateCompoundEffect inputs monthlyProfit = Ok rows /\
    length rows = S n /\
    hd_error rows =
      Some {| CompoundDataItem.month := 0;
              CompoundDataItem.adCost := adCost inputs;
              CompoundDataItem.revenue := 0;
              CompoundDataItem.profit := 0;
              CompoundDataItem.cumulativeAdCost := 0;
              CompoundDataItem.cumulativeRevenue := 0;
              CompoundDataItem.cumulativeProfit := 0 |}.
Proof.
  intros H. exists (data (stateAt inputs (passes inputs))).
  split; [apply calculateCompoundEffect_ok |].
  rewrite length_data_stateAt, (passes_ofNat inputs n H).
  split; [reflexivity |].
  rewrite data_stateAt. reflexivity.
Qed.

Lemma row_count_witness :
  (exists rows,
     calculateCompoundEffect defaultInputs 0 = Ok rows /\
     length rows = 13%nat) /\
  (exists rows,
     calculateCompoundEffect (withMonths 0) 0 = Ok rows /\
     length rows = 1%nat).
Proof.
  split.
  - destruct (row_count defaultInputs 0 12) as [rows [Hrun [Hlen _]]].
    + reflexivity.
    + exists rows. split; [exact Hrun | exact Hlen].
  - destruct (row_count (withMonths 0) 0 0) as [rows [Hrun [Hlen _]]].
    + reflexivity.
    + exists rows. split; [exact Hrun | exact Hlen].
Defined.

(** C10, months outside the contract: a negative [months] yields the empty
    sequence, without the sentinel row; a [months >= 0], integer or not,
    yields [floor months + 1] rows, the [m]-th of which is the row of month
    [m]. *)
Theorem months_out_of_contract (inputs : InputValues) (monthlyProfit : Qc) :
  (months inputs < 0 ->
   calculateCompoundEffect inputs monthlyProfit = Ok []) /\
  (0 <= months inputs ->
   exists rows,
     calculateCompoundEffect inputs monthlyProfit = Ok rows /\
     length rows = Z.to_nat (Qfloor (months inputs) + 1) /\
     forall m r, nth_error rows m = Some r ->
                 CompoundDataItem.month r = ofNat m).
Proof.
  split; intros H.
  - rewrite calculateCompoundEffect_ok, (passes_negative inputs H). reflexivity.
  - exists (data (stateAt inputs (passes inputs))). split; [| split].
    + apply calculateCompoundEffect_ok.
    + rewrite length_data_stateAt. apply passes_nonnegative, H.
    + intros m r Hr.
      assert (Hm : (m < passes inputs)%nat).
      { rewrite <- (length_data_stateAt inputs (passes inputs)).
        apply nth_error_Some. congruence. }
      rewrite (nth_error_data_stateAt inputs _ m Hm) in Hr.
      injection Hr as <-. destruct m; reflexivity.
Qed.

Lemma months_out_of_contract_witness :
  calculateCompoundEffect (withMonths (- (1))) 0 = Ok [] /\
  exists rows,
    calculateCompoundEffect (withMonths (Q2Qc (5 # 2))) 0 = Ok rows /\
    length rows = 3%nat.
Proof.
  split.
  - apply (proj1 (months_out_of_contract (withMonths (- (1))) 0)).
    reflexivity.
  - destruct (proj2 (months_out_of_contract (withMonths (Q2Qc (5 # 2))) 0))
      as [rows [Hrun [Hlen _]]].
    + discriminate.
    + exists rows. split; [exact Hrun | exact Hlen].
Defined.

(** Every row the projection returns is the row of a pass. *)
Lemma nth_error_rows (inputs : InputValues) (m : nat) (r : CompoundDataItem.t) :
  nth_error (data (stateAt inputs (passes inputs))) m = Some r ->
  (m < passes inputs)%nat /\ r = itemAt inputs m (stateAt inputs m).
Proof.
  intros Hr.
  assert (Hm : (m < passes inputs)%nat).
  { rewrite <- (length_data_stateAt inputs (passes inputs)).
    apply nth_error_Some. congruence. }
  rewrite (nth_error_data_stateAt inputs _ m Hm) in Hr.
  split; [exact Hm | congruence].
Qed.

(** The [m]-th row of a run, for [m] below the number of passes. *)
Lemma nth_error_run (inputs : InputValues) (monthlyProfit : Qc)
    (rows : list CompoundDataItem.t) (m : nat) :
  calculateCompoundEffect inputs monthlyProfit = Ok rows ->
  (m < passes inputs)%nat ->
  nth_error rows m = Some (itemAt inputs m (stateAt inputs m)).
Proof.
  rewrite calculateCompoundEffect_ok. intros Hrun Hm.
  assert (Hrows : rows = data (stateAt inputs (passes inputs))) by congruence.
  rewrite Hrows. apply nth_error_data_stateAt, Hm.
Qed.

(** C6, sentinel law: when [months >= 0], row 0 has month 0, the baseline
    ad cost, and zero revenue, profit and cumulative figures. *)
Theorem sentinel_law (inputs : InputValues) (monthlyProfit : Qc) :
  0 <= months inputs ->
  exists rows r0,
    calculateCompoundEffect inputs monthlyProfit = Ok rows /\
    nth_error rows 0 = Some r0 /\
    CompoundDataItem.month r0 = 0 /\
    CompoundDataItem.adCost r0 = adCost inputs /\
    CompoundDataItem.revenue r0 = 0 /\
    CompoundDataItem.profit r0 = 0 /\
    CompoundDataItem.cumulativeAdCost r0 = 0 /\
    CompoundDataItem.cumulativeRevenue r0 = 0 /\
    CompoundDataItem.cumulativeProfit r0 = 0.
Proof.
  intros H.
  exists (data (stateAt inputs (passes inputs))),
         (itemAt inputs 0 (stateAt inputs 0)).
  split; [apply calculateCompoundEffect_ok |].
  split; [| repeat split].
  apply nth_error_data_stateAt. rewrite (passes_nonnegative inputs H).
  apply (ofZ_le 0) in H. lia.
Qed.

Lemma sentinel_law_witness :
  exists rows r0,
    calculateCompoundEffect defaultInputs 0 = Ok rows /\
    nth_error rows 0 = Some r0 /\
    CompoundDataItem.month r0 = 0 /\
    CompoundDataItem.adCost r0 = ofZ 500000 /\
    CompoundDataItem.revenue r0 = 0 /\
    CompoundDataItem.profit r0 = 0 /\
    CompoundDataItem.cumulativeAdCost r0 = 0 /\
    CompoundDataItem.cumulativeRevenue r0 = 0 /\
    CompoundDataItem.cumulativeProfit r0 = 0.
Proof.
  apply (sentinel_law defaultInputs 0). discriminate.
Defined.

(** C1, amended: rows [m] and [m + 1] both exist whenever
    [m + 1 <= months], and between two consecutive rows [m] and [m + 1]
    with [1 <= m] the ad cost of row [m + 1] is the profit of row [m]
    when that profit is positive, and the baseline [inputs.adCost]
    otherwise; the reset value is the baseline itself, so the next ad
    cost is not negative whenever the baseline is not negative. *)
Theorem reinvestment_law (inputs : InputValues) (monthlyProfit : Qc) :
  exists rows,
    calculateCompoundEffect inputs monthlyProfit = Ok rows /\
    (forall m : nat,
       ofNat (S m) <= months inputs ->
       exists r r', nth_error rows m = Some r /\
                    nth_error rows (S m) = Some r') /\
    forall (m : nat) (r r' : CompoundDataItem.t),
      (1 <= m)%nat ->
      nth_error rows m = Some r ->
      nth_error rows (S m) = Some r' ->
      (0 < CompoundDataItem.profit r ->
       CompoundDataItem.adCost r' = CompoundDataItem.profit r) /\
      (CompoundDataItem.profit r <= 0 ->
       CompoundDataItem.adCost r' = adCost inputs) /\
      (0 <= adCost inputs -> 0 <= CompoundDataItem.adCost r').
Proof.
  exists (data (stateAt inputs (passes inputs))).
  split; [apply calculateCompoundEffect_ok |]. split.
  { intros m Hm. apply passes_spec in Hm.
    exists (itemAt inputs m (stateAt inputs m)),
           (itemAt inputs (S m) (stateAt inputs (S m))).
    split; apply nth_error_data_stateAt; lia. }
  intros m r r' Hm Hr Hr'.
  apply nth_error_rows in Hr as [_ ->]. apply nth_error_rows in Hr' as [_ ->].
  destruct m as [| m]; [lia |].
  change (stateAt inputs (S (S m)))
    with (stepState inputs (S m) (stateAt inputs (S m))).
  set (st := stateAt inputs (S m)).
  cbn [itemAt stepState CompoundDataItem.adCost CompoundDataItem.profit
       currentAdCost].
  destruct (monthlyProfitOf inputs (currentAdCost st) >? 0) eqn:Hp.
  - apply gtb_true_iff in Hp. split; [| split].
    + reflexivity.
    + intros Hle. exfalso. exact (Qclt_not_le _ _ Hp Hle).
    + intros _. apply Qclt_le_weak, Hp.
  - apply gtb_false_iff in Hp. split; [| split].
    + intros Hlt. exfalso. exact (Qclt_not_le _ _ Hlt Hp).
    + reflexivity.
    + intros H0. exact H0.
Qed.

Lemma reinvestment_law_witness :
  (exists rows r1 r2,
     calculateCompoundEffect (withMonths (ofZ 2)) 0 = Ok rows /\
     nth_error rows 1 = Some r1 /\ nth_error rows 2 = Some r2 /\
     CompoundDataItem.profit r1 = ofZ 720000 /\
     CompoundDataItem.adCost r2 = CompoundDataItem.profit r1 /\
     0 <= CompoundDataItem.adCost r2) /\
  (exists rows r1 r2,
     calculateCompoundEffect (withMonthsRoas (ofZ 2) (- ofZ 300)) 0 = Ok rows /\
     nth_error rows 1 = Some r1 /\ nth_error rows 2 = Some r2 /\
     CompoundDataItem.profit r1 = - ofZ 720000 /\
     CompoundDataItem.adCost r2 = ofZ 500000 /\
     0 <= CompoundDataItem.adCost r2).
Proof.
  split.
  - destruct (reinvestment_law (withMonths (ofZ 2)) 0)
      as [rows [Hrun [_ Hlaw]]].
    set (inputs := withMonths (ofZ 2)) in *.
    assert (H1 : nth_error rows 1 = Some (itemAt inputs 1 (stateAt inputs 1))).
    { apply (nth_error_run inputs 0 rows 1 Hrun). vm_compute. lia. }
    assert (H2 : nth_error rows 2 = Some (itemAt inputs 2 (stateAt inputs 2))).
    { apply (nth_error_run inputs 0 rows 2 Hrun). vm_compute. lia. }
    destruct (Hlaw 1%nat _ _ (le_n 1) H1 H2) as [Hpos [_ Hnonneg]].
    exists rows, (itemAt inputs 1 (stateAt inputs 1)),
           (itemAt inputs 2 (stateAt inputs 2)).
    split; [exact Hrun |]. split; [exact H1 |]. split; [exact H2 |].
    split; [| split].
    + apply Qc_is_canon. vm_compute. reflexivity.
    + apply Hpos. vm_compute. reflexivity.
    + apply Hnonneg. vm_compute. discriminate.
  - destruct (reinvestment_law (withMonthsRoas (ofZ 2) (- ofZ 300)) 0)
      as [rows [Hrun [_ Hlaw]]].
    set (inputs := withMonthsRoas (ofZ 2) (- ofZ 300)) in *.
    assert (H1 : nth_error rows 1 = Some (itemAt inputs 1 (stateAt inputs 1))).
    { apply (nth_error_run inputs 0 rows 1 Hrun). vm_compute. lia. }
    assert (H2 : nth_error rows 2 = Some (itemAt inputs 2 (stateAt inputs 2))).
    { apply (nth_error_run inputs 0 rows 2 Hrun). vm_compute. lia. }
    destruct (Hlaw 1%nat _ _ (le_n 1) H1 H2) as [_ [Hreset Hnonneg]].
    exists rows, (itemAt inputs 1 (stateAt inputs 1)),
           (itemAt inputs 2 (stateAt inputs 2)).
    split; [exact Hrun |]. split; [exact H1 |]. split; [exact H2 |].
    split; [| split].
    + apply Qc_is_canon. vm_compute. reflexivity.
    + rewrite Hreset; [reflexivity | vm_compute; discriminate].
    + apply Hnonneg. vm_compute. discriminate.
Defined.

(** The cumulative figures a pass after month 0 leaves in the state are
    those of the row it pushed. *)
Lemma stateAt_succ_cumulative (inputs : InputValues) (m : nat) :
  let r := itemAt inputs (S m) (stateAt inputs (S m)) in
  let st := stateAt inputs (S (S m)) in
  cumulativeAdCost st = CompoundDataItem.cumulativeAdCost r /\
  cumulativeRevenue st = CompoundDataItem.cumulativeRevenue r /\
  cumulativeProfit st = CompoundDataItem.cumulativeProfit r.
Proof. repeat split. Qed.

Lemma one_lt_passes (inputs : InputValues) :
  1 <= months inputs -> (1 < passes inputs)%nat.
Proof. intros H. apply passes_spec. exact H. Qed.

(** C2, waiver law: with [firstMonthFree] set and [months >= 1], row 1 has
    a cumulative ad cost of 0 and a cumulative profit equal to its own
    profit before ad cost; from every row [m >= 1] to the next, the ad cost
    of the month is accrued and deducted in full, so the waiver applies at
    month 1 and at no later month. *)
Theorem waiver_law (inputs : InputValues) (monthlyProfit : Qc) :
  firstMonthFree inputs = true ->
  1 <= months inputs ->
  exists rows r1,
    calculateCompoundEffect inputs monthlyProfit = Ok rows /\
    nth_error rows 1 = Some r1 /\
    CompoundDataItem.cumulativeAdCost r1 = 0 /\
    CompoundDataItem.cumulativeProfit r1 = CompoundDataItem.profit r1 /\
    forall (m : nat) (r r' : CompoundDataItem.t),
      (1 <= m)%nat ->
      nth_error rows m = Some r ->
      nth_error rows (S m) = Some r' ->
      CompoundDataItem.cumulativeAdCost r' =
        CompoundDataItem.cumulativeAdCost r + CompoundDataItem.adCost r' /\
      CompoundDataItem.cumulativeProfit r' =
        CompoundDataItem.cumulativeProfit r +
        (CompoundDataItem.profit r' - CompoundDataItem.adCost r').
Proof.
  intros Hfree Hmonths.
  exists (data (stateAt inputs (passes inputs))),
         (itemAt inputs 1 (stateAt inputs 1)).
  split; [apply calculateCompoundEffect_ok |].
  split; [apply nth_error_data_stateAt, one_lt_passes, Hmonths |].
  split; [| split].
  - cbn. unfold waived. rewrite Hfree. reflexivity.
  - cbn. unfold waived. rewrite Hfree. cbn. apply Qcplus_0_l.
  - intros m r r' Hm Hr Hr'.
    apply nth_error_rows in Hr as [_ ->]. apply nth_error_rows in Hr' as [_ ->].
    destruct m as [| m]; [lia |].
    destruct (stateAt_succ_cumulative inputs m) as [Hc [_ Hp]].
    cbv zeta in Hc, Hp. rewrite <- Hc, <- Hp.
    set (st := stateAt inputs (S (S m))).
    split; reflexivity.
Qed.

Lemma waiver_law_witness :
  exists rows r1 r2 r3,
    calculateCompoundEffect (withMonths (ofZ 3)) 0 = Ok rows /\
    nth_error rows 1 = Some r1 /\
    nth_error rows 2 = Some r2 /\
    nth_error rows 3 = Some r3 /\
    CompoundDataItem.cumulativeAdCost r1 = 0 /\
    CompoundDataItem.cumulativeProfit r1 = CompoundDataItem.profit r1 /\
    CompoundDataItem.cumulativeAdCost r2 = ofZ 720000 /\
    CompoundDataItem.cumulativeAdCost r3 =
      CompoundDataItem.cumulativeAdCost r2 + CompoundDataItem.adCost r3.
Proof.
  destruct (waiver_law (withMonths (ofZ 3)) 0) as [rows [r1 H]].
  - reflexivity.
  - discriminate.
  - destruct H as [Hrun [H1 [Hcost [Hprofit Hlater]]]].
    set (inputs := withMonths (ofZ 3)) in *.
    assert (H2 : nth_error rows 2 = Some (itemAt inputs 2 (stateAt inputs 2))).
    { apply (nth_error_run inputs 0 rows 2 Hrun). vm_compute. lia. }
    assert (H3 : nth_error rows 3 = Some (itemAt inputs 3 (stateAt inputs 3))).
    { apply (nth_error_run inputs 0 rows 3 Hrun). vm_compute. lia. }
    exists rows, r1, (itemAt inputs 2 (stateAt inputs 2)),
           (itemAt inputs 3 (stateAt inputs 3)).
    split; [exact Hrun |]. split; [exact H1 |]. split; [exact H2 |].
    split; [exact H3 |]. split; [exact Hcost |]. split; [exact Hprofit |].
    split.
    + apply Qc_is_canon. vm_compute. reflexivity.
    + apply (Hlater 2%nat _ _ (le_S _ _ (le_n 1)) H2 H3).
Defined.

Lemma monthlyProfitOf_factored (inputs : InputValues) (spend : Qc) :
  monthlyProfitOf inputs spend =
  monthlyRevenueOf inputs spend * (profitMargin inputs / 100)
  * (1 - affiliateCommission inputs / 100).
Proof. unfold monthlyProfitOf. ring. Qed.

Lemma stateAt_consistent (inputs : InputValues) (k : nat) :
  consistent inputs (cumulativeProfit (stateAt inputs k))
    (cumulativeRevenue (stateAt inputs k))
    (cumulativeAdCost (stateAt inputs k)).
Proof.
  unfold consistent. induction k as [| k IH].
  - cbn. ring.
  - destruct k as [| k]; [exact IH |].
    change (stateAt inputs (S (S k)))
      with (stepState inputs (S k) (stateAt inputs (S k))).
    set (st := stateAt inputs (S k)) in *.
    cbn [stepState itemAt cumulativeProfit cumulativeRevenue cumulativeAdCost
         CompoundDataItem.cumulativeProfit CompoundDataItem.cumulativeRevenue
         CompoundDataItem.cumulativeAdCost].
    rewrite IH, monthlyProfitOf_factored.
    destruct (waived inputs (S k)); cbn [negb]; ring.
Qed.

(** ** The single-period calculator *)

Lemma positive_nonzero (y : Qc) : 0 < y -> y <> 0.
Proof. intros H E. apply (Qclt_not_eq _ _ H). symmetry. exact E. Qed.

(** A ternary that divides only under the guard [y > 0] never leaves the
    finite numbers. *)
Lemma guarded_div (x y : Qc) :
  (if y >? 0 then x // y else Ok 0) = Ok (if y >? 0 then x / y else 0).
Proof.
  destruct (y >? 0) eqn:Hy; [| reflexivity].
  apply div_checked, positive_nonzero, gtb_true_iff, Hy.
Qed.

Lemma guarded_div_scaled (x y k : Qc) :
  (if y >? 0 then (q <- x // y ;; Ok (q * k)) else Ok 0) =
  Ok (if y >? 0 then x / y * k else 0).
Proof.
  destruct (y >? 0) eqn:Hy; [| reflexivity].
  rewrite div_checked; [reflexivity |].
  apply positive_nonzero, gtb_true_iff, Hy.
Qed.

(** [calculate] never divides by zero. *)
Lemma calculate_ok (inputs : InputValues) :
  calculate inputs = Ok (resultsOf inputs).
Proof.
  unfold calculate. rewrite div_100. cbn [bind].
  rewrite guarded_div. cbn [bind].
  rewrite guarded_div. cbn [bind].
  rewrite !div_100. cbn [bind].
  rewrite guarded_div_scaled. cbn [bind].
  rewrite !guarded_div. cbn [bind].
  reflexivity.
Qed.

Lemma if_gtb_pos (y a b : Qc) : 0 < y -> (if y >? 0 then a else b) = a.
Proof. intros H. apply gtb_true_iff in H. rewrite H. reflexivity. Qed.

Lemma if_gtb_nonpos (y a b : Qc) : y <= 0 -> (if y >? 0 then a else b) = b.
Proof. intros H. apply gtb_false_iff in H. rewrite H. reflexivity. Qed.

(** C3 as stated fails on the default inputs: the seat count there is
    [500000 / 60000 = 25/3], not 2. *)
Lemma default_seatCount_not_2 :
  exists r,
    calculate defaultInputs = Ok r /\
    seatCount r = Q2Qc (25 # 3) /\
    seatCount r <> ofZ 2.
Proof.
  exists (resultsOf defaultInputs). split; [apply calculate_ok |]. split.
  - apply Qc_is_canon. vm_compute. reflexivity.
  - intros H. apply eqb_true_iff in H. vm_compute in H. discriminate.
Qed.

(** C3, amended: [calculate] satisfies formulas 1-10 for every input, and
    on the default inputs it returns revenue 1500000, 2.5 sales, CPA
    200000, profit amount 900000, affiliate amount 180000, profit before
    ad cost 720000, profit 720000, actual ROAS 300, seat count 25/3 and
    daily cost 50000/3. *)
Theorem single_period_formulas :
  (forall inputs : InputValues,
   exists r,
     calculate inputs = Ok r /\
     revenue r = adCost inputs * roas inputs / 100 /\
     (0 < productPrice inputs ->
      numberOfSales r = revenue r / productPrice inputs) /\
     (productPrice inputs <= 0 -> numberOfSales r = 0) /\
     (0 < numberOfSales r -> cpa r = adCost inputs / numberOfSales r) /\
     (numberOfSales r <= 0 -> cpa r = 0) /\
     profitAmount r = revenue r * profitMargin inputs / 100 /\
     affiliateAmount r = profitAmount r * affiliateCommission inputs / 100 /\
     profitBeforeAdCost r = profitAmount r - affiliateAmount r /\
     (firstMonthFree inputs = true -> profit r = profitBeforeAdCost r) /\
     (firstMonthFree inputs = false ->
      profit r = profitBeforeAdCost r - adCost inputs) /\
     (0 < adCost inputs -> roasActual r = revenue r / adCost inputs * 100) /\
     (adCost inputs <= 0 -> roasActual r = 0) /\
     (0 < seatCpa inputs -> seatCount r = adCost inputs / seatCpa inputs) /\
     (seatCpa inputs <= 0 -> seatCount r = 0) /\
     (0 < operationDays inputs ->
      dailyCost r = adCost inputs / operationDays inputs) /\
     (operationDays inputs <= 0 -> dailyCost r = 0)) /\
  (exists r,
     calculate defaultInputs = Ok r /\
     revenue r = ofZ 1500000 /\
     numberOfSales r = Q2Qc (5 # 2) /\
     cpa r = ofZ 200000 /\
     profitAmount r = ofZ 900000 /\
     affiliateAmount r = ofZ 180000 /\
     profitBeforeAdCost r = ofZ 720000 /\
     profit r = ofZ 720000 /\
     roasActual r = ofZ 300 /\
     seatCount r = Q2Qc (25 # 3) /\
     dailyCost r = Q2Qc (50000 # 3)).
Proof.
  split.
  - intros inputs. exists (resultsOf inputs).
    split; [apply calculate_ok |].
    unfold resultsOf.
    cbn [revenue numberOfSales cpa profitAmount affiliateAmount
         profitBeforeAdCost profit roasActual seatCount dailyCost].
    repeat match goal with |- _ /\ _ => split end;
      try reflexivity;
      try (intros H; apply if_gtb_pos; exact H);
      try (intros H; apply if_gtb_nonpos; exact H);
      intros H; rewrite H; reflexivity.
  - exists (resultsOf defaultInputs). split; [apply calculate_ok |].
    repeat match goal with |- _ /\ _ => split end;
      apply Qc_is_canon; vm_compute; reflexivity.
Qed.

Lemma single_period_formulas_witness :
  exists r,
    calculate defaultInputs = Ok r /\
    numberOfSales r = revenue r / ofZ 600000 /\
    cpa r = ofZ 500000 / numberOfSales r /\
    profit r = profitBeforeAdCost r /\
    roasActual r = revenue r / ofZ 500000 * 100 /\
    seatCount r = ofZ 500000 / ofZ 60000 /\
    dailyCost r = ofZ 500000 / ofZ 30.
Proof.
  destruct (proj1 single_period_formulas defaultInputs)
    as [r [Hrun [_ [Hsales [_ [Hcpa [_ [_ [_ [_ [Hfree [_ H]]]]]]]]]]]].
  destruct H as [Hroas [_ [Hseat [_ [Hdaily _]]]]].
  assert (Hr : r = resultsOf defaultInputs).
  { pose proof (calculate_ok defaultInputs) as Hok. congruence. }
  exists r. split; [exact Hrun |].
  split; [apply Hsales; reflexivity |].
  split; [apply Hcpa; rewrite Hr; vm_compute; reflexivity |].
  split; [apply Hfree; reflexivity |].
  split; [apply Hroas; reflexivity |].
  split; [apply Hseat; reflexivity |].
  apply Hdaily; reflexivity.
Defined.

(** C4, totality and saturating division: [calculate] completes on every
    input without leaving the finite numbers, and a non-positive
    denominator makes the metric that depends on it exactly 0. *)
Theorem calculate_total (inputs : InputValues) :
  exists r,
    calculate inputs = Ok r /\
    (productPrice inputs <= 0 -> numberOfSales r = 0) /\
    (numberOfSales r <= 0 -> cpa r = 0) /\
    (adCost inputs <= 0 -> roasActual r = 0) /\
    (seatCpa inputs <= 0 -> seatCount r = 0) /\
    (operationDays inputs <= 0 -> dailyCost r = 0).
Proof.
  exists (resultsOf inputs). split; [apply calculate_ok |].
  unfold resultsOf.
  cbn [numberOfSales cpa roasActual seatCount dailyCost].
  repeat match goal with |- _ /\ _ => split end;
    intros H; apply if_gtb_nonpos; exact H.
Qed.

Lemma calculate_total_witness :
  exists r,
    calculate degenerateInputs = Ok r /\
    numberOfSales r = 0 /\ cpa r = 0 /\ roasActual r = 0 /\
    seatCount r = 0 /\ dailyCost r = 0.
Proof.
  destruct (calculate_total degenerateInputs)
    as [r [Hrun [Hsales [Hcpa [Hroas [Hseat Hdaily]]]]]].
  exists r. split; [exact Hrun |].
  assert (Hs : numberOfSales r = 0) by (apply Hsales; discriminate).
  split; [exact Hs |].
  split; [apply Hcpa; rewrite Hs; discriminate |].
  split; [apply Hroas; discriminate |].
  split; [apply Hseat; discriminate | apply Hdaily; discriminate].
Defined.

(** ** Dead fields *)

Lemma forLoop_live_fields (a b : InputValues) :
  agreeOnLiveFields a b ->
  forall (fuel : nat) (month : Qc) (st : LoopState),
    forLoop fuel a month st = forLoop fuel b month st.
Proof.
  intros H fuel.
  destruct a, b. unfold agreeOnLiveFields in H. cbn in H.
  destruct H as (-> & -> & -> & -> & -> & -> & -> & -> & ->).
  induction fuel as [| fuel IH]; intros month st; [reflexivity |].
  cbn [forLoop months]. destruct (month <=? _); [| reflexivity].
  unfold loopBody.
  cbn [adCost roas profitMargin affiliateCommission firstMonthFree].
  destruct (month =? 0); cbn [bind]; [apply IH |].
  rewrite !div_100. cbn [bind]. apply IH.
Qed.

(** C8, dead-field noninterference: inputs that differ only in
    [conversionRate] and [appointments] give the same results and the same
    projection. *)
Theorem dead_fields_noninterference (a b : InputValues) :
  agreeOnLiveFields a b ->
  calculate a = calculate b /\
  (forall monthlyProfit : Qc,
     calculateCompoundEffect a monthlyProfit =
     calculateCompoundEffect b monthlyProfit) /\
  runEffect a = runEffect b.
Proof.
  intros H.
  assert (Hcalc : calculate a = calculate b).
  { destruct a, b. unfold agreeOnLiveFields in H. cbn in H.
    destruct H as (-> & -> & -> & -> & -> & -> & -> & -> & ->).
    reflexivity. }
  assert (Hproj : forall monthlyProfit : Qc,
             calculateCompoundEffect a monthlyProfit =
             calculateCompoundEffect b monthlyProfit).
  { intros monthlyProfit. unfold calculateCompoundEffect.
    rewrite (forLoop_live_fields a b H).
    destruct H as (Hcost & _ & _ & _ & _ & _ & _ & Hmonths & _).
    unfold loopFuel, initialState. rewrite Hcost, Hmonths. reflexivity. }
  split; [exact Hcalc |]. split; [exact Hproj |].
  unfold runEffect. rewrite Hcalc.
  destruct (calculate b) as [r | |]; cbn [bind]; try reflexivity.
  rewrite Hproj. reflexivity.
Qed.

Lemma dead_fields_noninterference_witness :
  conversionRate otherDeadFields <> conversionRate defaultInputs /\
  appointments otherDeadFields <> appointments defaultInputs /\
  calculate otherDeadFields = calculate defaultInputs /\
  (forall monthlyProfit : Qc,
     calculateCompoundEffect otherDeadFields monthlyProfit =
     calculateCompoundEffect defaultInputs monthlyProfit) /\
  runEffect otherDeadFields = runEffect defaultInputs.
Proof.
  split; [intros H; apply eqb_true_iff in H; discriminate |].
  split; [intros H; apply eqb_true_iff in H; discriminate |].
  apply (dead_fields_noninterference otherDeadFields defaultInputs).
  unfold agreeOnLiveFields. repeat split.
Defined.

(** ** The default scenario in binary64 *)

(** Month 1 on the default inputs: revenue 1500000, profit 720000. *)
Example binary64_default_month_1 :
  Binary64.monthlyFigures 500000 300 60 20 = (1500000, 720000)%float.
Proof. reflexivity. Qed.

(** Month 2, on the reinvested 720000: revenue 2160000. *)
Example binary64_default_month_2 :
  fst (Binary64.monthlyFigures 720000 300 60 20) = 2160000%float.
Proof. reflexivity. Qed.

(** The seat count on the default inputs is the binary64 value nearest to
    25/3 (printed 8.333333333333334 by the source), not 2. *)
Example binary64_default_seatCount :
  Binary64.seatCount 500000 60000 = 0x1.0aaaaaaaaaaabp+3%float /\
  PrimFloat.eqb (Binary64.seatCount 500000 60000) 2 = false.
Proof. split; reflexivity. Qed.

(** * Further properties *)

(** ** The spend *)

Lemma currentAdCost_pos (inputs : InputValues) (k : nat) :
  0 < adCost inputs -> 0 < currentAdCost (stateAt inputs k).
Proof.
  intros H. induction k as [| k IH]; [exact H |].
  destruct k as [| k]; [exact H |].
  change (stateAt inputs (S (S k)))
    with (stepState inputs (S k) (stateAt inputs (S k))).
  cbn [stepState currentAdCost].
  destruct (monthlyProfitOf inputs (currentAdCost (stateAt inputs (S k))) >? 0)
    eqn:Hp; [apply gtb_true_iff, Hp | exact H].
Qed.

Lemma currentAdCost_nonneg (inputs : InputValues) (k : nat) :
  0 <= adCost inputs -> 0 <= currentAdCost (stateAt inputs k).
Proof.
  intros H. induction k as [| k IH]; [exact H |].
  destruct k as [| k]; [exact H |].
  change (stateAt inputs (S (S k)))
    with (stepState inputs (S k) (stateAt inputs (S k))).
  cbn [stepState currentAdCost].
  destruct (monthlyProfitOf inputs (currentAdCost (stateAt inputs (S k))) >? 0)
    eqn:Hp; [apply Qclt_le_weak, gtb_true_iff, Hp | exact H].
Qed.

Lemma itemAt_adCost (inputs : InputValues) (m : nat) (st : LoopState) :
  CompoundDataItem.adCost (itemAt inputs m st) = currentAdCost st.
Proof. destruct m; reflexivity. Qed.

(** With a positive baseline the spend never falls to zero or below: every
    row has a positive ad cost, profitable month or not. *)
Theorem spend_stays_positive (inputs : InputValues) (monthlyProfit : Qc) :
  0 < adCost inputs ->
  exists rows,
    calculateCompoundEffect inputs monthlyProfit = Ok rows /\
    forall (m : nat) (r : CompoundDataItem.t),
      nth_error rows m = Some r -> 0 < CompoundDataItem.adCost r.
Proof.
  intros H. exists (data (stateAt inputs (passes inputs))).
  split; [apply calculateCompoundEffect_ok |].
  intros m r Hr. apply nth_error_rows in Hr as [_ ->].
  rewrite itemAt_adCost. apply currentAdCost_pos, H.
Qed.

Lemma spend_stays_positive_witness :
  exists rows r2,
    calculateCompoundEffect (withMonthsRoas (ofZ 2) (- ofZ 300)) 0 = Ok rows /\
    nth_error rows 2 = Some r2 /\
    0 < CompoundDataItem.adCost r2.
Proof.
  destruct (spend_stays_positive (withMonthsRoas (ofZ 2) (- ofZ 300)) 0)
    as [rows [Hrun Hrows]]; try reflexivity.
  set (inputs := withMonthsRoas (ofZ 2) (- ofZ 300)) in *.
  assert (H2 : nth_error rows 2 = Some (itemAt inputs 2 (stateAt inputs 2))).
  { apply (nth_error_run inputs 0 rows 2 Hrun). vm_compute. lia. }
  exists rows, (itemAt inputs 2 (stateAt inputs 2)).
  split; [exact Hrun |]. split; [exact H2 | apply (Hrows 2%nat _ H2)].
Defined.

(** ** The accumulators *)

(** The cumulative figures of the row of month [m] are those of the state
    on entry to month [m + 1]. *)
Lemma itemAt_cumulative (inputs : InputValues) (m : nat) :
  let r := itemAt inputs m (stateAt inputs m) in
  let st := stateAt inputs (S m) in
  CompoundDataItem.cumulativeAdCost r = cumulativeAdCost st /\
  CompoundDataItem.cumulativeRevenue r = cumulativeRevenue st /\
  CompoundDataItem.cumulativeProfit r = cumulativeProfit st.
Proof. destruct m; repeat split. Qed.

Lemma Qcle_plus_nonneg (x y : Qc) : 0 <= y -> x <= x + y.
Proof.
  intros H. rewrite <- (Qcplus_0_r x) at 1.
  apply Qcplus_le_compat; [apply Qcle_refl | exact H].
Qed.

(** With a non-negative baseline the cumulative ad cost never decreases
    from one row to the next, and is never negative. *)
Theorem cumulativeAdCost_monotone (inputs : InputValues) (monthlyProfit : Qc) :
  0 <= adCost inputs ->
  exists rows,
    calculateCompoundEffect inputs monthlyProfit = Ok rows /\
    (forall (m : nat) (r : CompoundDataItem.t),
       nth_error rows m = Some r ->
       0 <= CompoundDataItem.cumulativeAdCost r) /\
    forall (m : nat) (r r' : CompoundDataItem.t),
      nth_error rows m = Some r ->
      nth_error rows (S m) = Some r' ->
      CompoundDataItem.cumulativeAdCost r
      <= CompoundDataItem.cumulativeAdCost r'.
Proof.
  intros H. exists (data (stateAt inputs (passes inputs))).
  split; [apply calculateCompoundEffect_ok |].
  assert (Hstep : forall m,
             CompoundDataItem.cumulativeAdCost
               (itemAt inputs m (stateAt inputs m))
             <= CompoundDataItem.cumulativeAdCost
                  (itemAt inputs (S m) (stateAt inputs (S m)))).
  { intros m. destruct (itemAt_cumulative inputs m) as [Hc _].
    cbv zeta in Hc. rewrite Hc.
    cbn [itemAt CompoundDataItem.cumulativeAdCost].
    destruct (waived inputs (S m)); cbn [negb].
    - apply Qcle_refl.
    - apply Qcle_plus_nonneg, currentAdCost_nonneg, H. }
  assert (Hnonneg : forall m,
             0 <= CompoundDataItem.cumulativeAdCost
                    (itemAt inputs m (stateAt inputs m))).
  { induction m as [| m IH]; [apply Qcle_refl |].
    apply Qcle_trans with (1 := IH). apply Hstep. }
  split.
  - intros m r Hr. apply nth_error_rows in Hr as [_ ->]. apply Hnonneg.
  - intros m r r' Hr Hr'.
    apply nth_error_rows in Hr as [_ ->].
    apply nth_error_rows in Hr' as [_ ->]. apply Hstep.
Qed.

Lemma cumulativeAdCost_monotone_witness :
  exists rows r2 r3,
    calculateCompoundEffect (withMonths (ofZ 3)) 0 = Ok rows /\
    nth_error rows 2 = Some r2 /\
    nth_error rows 3 = Some r3 /\
    CompoundDataItem.cumulativeAdCost r2
    <= CompoundDataItem.cumulativeAdCost r3.
Proof.
  destruct (cumulativeAdCost_monotone (withMonths (ofZ 3)) 0)
    as [rows [Hrun [_ Hrows]]]; try discriminate.
  set (inputs := withMonths (ofZ 3)) in *.
  assert (H2 : nth_error rows 2 = Some (itemAt inputs 2 (stateAt inputs 2))).
  { apply (nth_error_run inputs 0 rows 2 Hrun). vm_compute. lia. }
  assert (H3 : nth_error rows 3 = Some (itemAt inputs 3 (stateAt inputs 3))).
  { apply (nth_error_run inputs 0 rows 3 Hrun). vm_compute. lia. }
  exists rows, (itemAt inputs 2 (stateAt inputs 2)),
         (itemAt inputs 3 (stateAt inputs 3)).
  split; [exact Hrun |]. split; [exact H2 |]. split; [exact H3 |].
  apply (Hrows 2%nat _ _ H2 H3).
Defined.

Lemma firstn_seq_le (n : nat) :
  forall start n' : nat,
    (n <= n')%nat -> firstn n (seq start n') = seq start n.
Proof.
  induction n as [| n IH]; intros start n' H; [reflexivity |].
  destruct n' as [| n']; [lia |].
  cbn [seq firstn]. rewrite IH by lia. reflexivity.
Qed.

Lemma firstn_data_stateAt (inputs : InputValues) (n n' : nat) :
  (n <= n')%nat ->
  firstn n (data (stateAt inputs n')) = data (stateAt inputs n).
Proof.
  intros H. rewrite !data_stateAt, firstn_map, firstn_seq_le by exact H.
  reflexivity.
Qed.

(** ** The horizon *)

(** The loop reads five fields besides the horizon; inputs that agree on
    them go through the same states. *)
Lemma stateAt_loop_fields (a b : InputValues) (k : nat) :
  agreeOnLoopFields a b -> stateAt a k = stateAt b k.
Proof.
  intros H. destruct a, b. unfold agreeOnLoopFields in H. cbn in H.
  destruct H as (-> & -> & -> & -> & ->).
  induction k as [| k IH]; [reflexivity |].
  cbn [stateAt]. rewrite IH. destruct k; reflexivity.
Qed.

Lemma length_run (inputs : InputValues) (monthlyProfit : Qc)
    (rows : list CompoundDataItem.t) :
  calculateCompoundEffect inputs monthlyProfit = Ok rows ->
  length rows = passes inputs.
Proof.
  rewrite calculateCompoundEffect_ok. intros Hrun.
  assert (Hrows : rows = data (stateAt inputs (passes inputs))) by congruence.
  rewrite Hrows. apply length_data_stateAt.
Qed.

(** Extending the horizon only appends rows: when two inputs agree on the
    fields the loop reads and the second has the longer horizon, the
    projection of the first is a prefix of the projection of the second. *)
Theorem longer_horizon_extends (a b : InputValues) (monthlyProfit : Qc) :
  agreeOnLoopFields a b ->
  months a <= months b ->
  exists rows rows',
    calculateCompoundEffect a monthlyProfit = Ok rows /\
    calculateCompoundEffect b monthlyProfit = Ok rows' /\
    (length rows <= length rows')%nat /\
    rows = firstn (length rows) rows'.
Proof.
  intros Hagree Hmonths.
  exists (data (stateAt a (passes a))), (data (stateAt b (passes b))).
  split; [apply calculateCompoundEffect_ok |].
  split; [apply calculateCompoundEffect_ok |].
  assert (Hpasses : (passes a <= passes b)%nat).
  { destruct (passes a) as [| n] eqn:Hn; [lia |].
    apply (passes_spec b n).
    apply Qcle_trans with (2 := Hmonths). apply (passes_spec a n). lia. }
  rewrite !length_data_stateAt. split; [exact Hpasses |].
  rewrite (firstn_data_stateAt b _ _ Hpasses).
  rewrite (stateAt_loop_fields a b _ Hagree). reflexivity.
Qed.

Lemma longer_horizon_extends_witness :
  exists rows rows',
    calculateCompoundEffect (withMonths (ofZ 2)) 0 = Ok rows /\
    calculateCompoundEffect defaultInputs 0 = Ok rows' /\
    length rows = 3%nat /\
    rows = firstn 3 rows'.
Proof.
  destruct (longer_horizon_extends (withMonths (ofZ 2)) defaultInputs 0)
    as [rows [rows' [Hrun [Hrun' [_ Hprefix]]]]].
  - unfold agreeOnLoopFields. repeat split.
  - discriminate.
  - assert (Hlen : length rows = 3%nat).
    { rewrite (length_run _ _ _ Hrun). reflexivity. }
    exists rows, rows'. rewrite Hlen in Hprefix.
    split; [exact Hrun |]. split; [exact Hrun' |].
    split; [exact Hlen | exact Hprefix].
Defined.

(** ** The event handlers *)

Lemma orZero_same (v : Qc) : orZero (Some v) = v.
Proof.
  unfold orZero. destruct (v =? 0) eqn:H; [| reflexivity].
  apply eqb_true_iff in H. symmetry. exact H.
Qed.

(** [handleInputChange] writes the field it is called for, with an entry
    that does not parse or is zero stored as 0, and leaves every other
    field, the checkbox included, as it was. *)
Theorem handleInputChange_get_set (inputs : InputValues) (name : FieldName)
    (parsed : option Qc) :
  getField name (handleInputChange inputs name parsed) = orZero parsed /\
  (orZero parsed = match parsed with Some v => v | None => 0 end) /\
  (forall other : FieldName,
     other <> name ->
     getField other (handleInputChange inputs name parsed) =
     getField other inputs) /\
  firstMonthFree (handleInputChange inputs name parsed) =
  firstMonthFree inputs.
Proof.
  split; [destruct name; reflexivity |].
  split; [destruct parsed as [v |]; [apply orZero_same | reflexivity] |].
  split; [| reflexivity].
  intros other Hother.
  destruct name, other; try reflexivity; exfalso; apply Hother; reflexivity.
Qed.

Lemma handleInputChange_get_set_witness :
  months (handleInputChange defaultInputs Name_months (Some (ofZ 24))) = ofZ 24 /\
  months (handleInputChange defaultInputs Name_months None) = 0 /\
  adCost (handleInputChange defaultInputs Name_months None) = ofZ 500000.
Proof.
  destruct (handleInputChange_get_set defaultInputs Name_months (Some (ofZ 24)))
    as [Hset [Hcoerce _]].
  destruct (handleInputChange_get_set defaultInputs Name_months None)
    as [Hset' [_ [Hframe _]]].
  split; [exact (eq_trans Hset Hcoerce) |]. split; [exact Hset' |].
  apply (Hframe Name_adCost). discriminate.
Defined.

(** How the handlers compose: a later entry in a field replaces an earlier
    one; entries in different fields commute; an entry commutes with a
    change of the checkbox; and a later change of the checkbox replaces
    an earlier one. *)
Theorem handlers_compose (inputs : InputValues) :
  (forall (name : FieldName) (first second : option Qc),
     handleInputChange (handleInputChange inputs name first) name second =
     handleInputChange inputs name second) /\
  (forall (name name' : FieldName) (parsed parsed' : option Qc),
     name <> name' ->
     handleInputChange (handleInputChange inputs name parsed) name' parsed' =
     handleInputChange (handleInputChange inputs name' parsed') name parsed) /\
  (forall (name : FieldName) (parsed : option Qc) (checked : bool),
     onFirstMonthFreeChange (handleInputChange inputs name parsed) checked =
     handleInputChange (onFirstMonthFreeChange inputs checked) name parsed) /\
  (forall first second : bool,
     onFirstMonthFreeChange (onFirstMonthFreeChange inputs first) second =
     onFirstMonthFreeChange inputs second).
Proof.
  split; [| split; [| split]].
  - intros name first second. destruct name; reflexivity.
  - intros name name' parsed parsed' Hneq.
    destruct name, name'; try reflexivity; exfalso; apply Hneq; reflexivity.
  - intros name parsed checked. destruct name; reflexivity.
  - intros first second. reflexivity.
Qed.

Lemma handlers_compose_witness :
  handleInputChange
    (handleInputChange defaultInputs Name_roas (Some (ofZ 250)))
    Name_months None =
  handleInputChange
    (handleInputChange defaultInputs Name_months None)
    Name_roas (Some (ofZ 250)).
Proof.
  apply (proj1 (proj2 (handlers_compose defaultInputs))). discriminate.
Defined.

(** Entering again the value a field holds, or setting the checkbox to the
    state it is in, leaves the inputs as they are. *)
Theorem reentering_changes_nothing (inputs : InputValues) :
  (forall name : FieldName,
     handleInputChange inputs name (Some (getField name inputs)) = inputs) /\
  onFirstMonthFreeChange inputs (firstMonthFree inputs) = inputs.
Proof.
  split.
  - intros name. unfold handleInputChange. rewrite orZero_same.
    destruct inputs, name; reflexivity.
  - destruct inputs; reflexivity.
Qed.

Lemma runEffect_live_fields (a b : InputValues) :
  agreeOnLiveFields a b -> runEffect a = runEffect b.
Proof.
  intros H. unfold runEffect.
  assert (Hcalc : calculate a = calculate b).
  { destruct a, b. unfold agreeOnLiveFields in H. cbn in H.
    destruct H as (-> & -> & -> & -> & -> & -> & -> & -> & ->).
    reflexivity. }
  rewrite Hcalc. destruct (calculate b) as [r | |]; cbn [bind]; try reflexivity.
  unfold calculateCompoundEffect. rewrite (forLoop_live_fields a b H).
  destruct H as (Hcost & _ & _ & _ & _ & _ & _ & Hmonths & _).
  unfold loopFuel, initialState. rewrite Hcost, Hmonths. reflexivity.
Qed.

(** An entry in the conversion-rate or in the appointments field, whatever
    it is, changes neither the results nor the projection. *)
Theorem dead_field_entry_invisible (inputs : InputValues)
    (parsed : option Qc) :
  runEffect (handleInputChange inputs Name_conversionRate parsed) =
    runEffect inputs /\
  runEffect (handleInputChange inputs Name_appointments parsed) =
    runEffect inputs.
Proof.
  split; apply runEffect_live_fields; unfold agreeOnLiveFields;
    repeat split.
Qed.

(** An entry that does not parse (an emptied field) in a denominator field
    is stored as 0, and the metric that divides by it is shown as 0: sales
    and CPA for the product price, seats for the seat CPA, daily cost for
    the operation days; emptied ad cost zeroes revenue and actual ROAS. *)
Theorem emptied_denominator_gives_zero (inputs : InputValues) :
  (exists r,
     calculate (handleInputChange inputs Name_productPrice None) = Ok r /\
     numberOfSales r = 0 /\ cpa r = 0) /\
  (exists r,
     calculate (handleInputChange inputs Name_seatCpa None) = Ok r /\
     seatCount r = 0) /\
  (exists r,
     calculate (handleInputChange inputs Name_operationDays None) = Ok r /\
     dailyCost r = 0) /\
  (exists r,
     calculate (handleInputChange inputs Name_adCost None) = Ok r /\
     revenue r = 0 /\ roasActual r = 0 /\ seatCount r = 0 /\ dailyCost r = 0).
Proof.
  split; [| split; [| split]].
  - exists (resultsOf (handleInputChange inputs Name_productPrice None)).
    split; [apply calculate_ok |]. split; reflexivity.
  - exists (resultsOf (handleInputChange inputs Name_seatCpa None)).
    split; [apply calculate_ok | reflexivity].
  - exists (resultsOf (handleInputChange inputs Name_operationDays None)).
    split; [apply calculate_ok | reflexivity].
  - exists (resultsOf (handleInputChange inputs Name_adCost None)).
    split; [apply calculate_ok |].
    unfold resultsOf, handleInputChange.
    cbn [revenue roasActual seatCount dailyCost adCost FieldName_eqb orZero
         getField roas seatCpa operationDays].
    assert (Hzero : forall x : Qc, 0 * x / 100 = 0)
      by (intros x; unfold Qcdiv; ring).
    assert (Hdiv : forall x : Qc, 0 / x = 0) by (intros x; unfold Qcdiv; ring).
    rewrite Hzero, !Hdiv.
    split; [reflexivity |]. split; [reflexivity |].
    split; [destruct (_ >? 0); reflexivity | destruct (_ >? 0); reflexivity].
Qed.

(** Emptying the months field leaves the sentinel row alone in the
    projection. *)
Theorem emptied_months_gives_sentinel (inputs : InputValues)
    (monthlyProfit : Qc) :
  calculateCompoundEffect (handleInputChange inputs Name_months None)
    monthlyProfit =
  Ok [ {| CompoundDataItem.month := 0;
          CompoundDataItem.adCost := adCost inputs;
          CompoundDataItem.revenue := 0;
          CompoundDataItem.profit := 0;
          CompoundDataItem.cumulativeAdCost := 0;
          CompoundDataItem.cumulativeRevenue := 0;
          CompoundDataItem.cumulativeProfit := 0 |} ].
Proof.
  rewrite calculateCompoundEffect_ok. reflexivity.
Qed.

(** ** The amounts as displayed *)

Lemma half_plus_half : Q2Qc (1 # 2) + Q2Qc (1 # 2) = 1.
Proof. apply Qc_is_canon. reflexivity. Qed.

Lemma Qfloor_unique (q : Qc) (z : Z) :
  ofZ z <= q -> q < ofZ (z + 1) -> Qfloor q = z.
Proof.
  intros Hle Hlt. apply ofZ_le in Hle.
  assert (H : ~ (z + 1 <= Qfloor q)%Z).
  { intros H. apply ofZ_le in H. exact (Qclt_not_le _ _ Hlt H). }
  lia.
Qed.

(** The amount shown by [formatNumber] is within half a unit of the amount
    itself: [round - 1/2 <= num < round + 1/2]. *)
Theorem Math_round_within_half (num : Qc) :
  ofZ (Math_round num) - Q2Qc (1 # 2) <= num /\
  num < ofZ (Math_round num) + Q2Qc (1 # 2).
Proof.
  unfold Math_round. set (h := Q2Qc (1 # 2)).
  remember (Qfloor (num + h)%Qc) as z eqn:Hz.
  assert (Hle : ofZ z <= num + h) by (apply ofZ_le; lia).
  assert (Hlt : num + h < ofZ (z + 1)).
  { apply Qcnot_le_lt. intros H. apply ofZ_le in H. lia. }
  split.
  - assert (E : num = num + h + - h) by ring.
    unfold Qcminus. rewrite E.
    apply Qcplus_le_compat; [exact Hle | apply Qcle_refl].
  - apply Qclt_minus_iff. apply Qclt_minus_iff in Hlt.
    replace (ofZ z + h + - num) with (ofZ (z + 1) + - (num + h)); [exact Hlt |].
    rewrite ofZ_succ, <- half_plus_half. fold h. ring.
Qed.

(** Whole amounts are shown as they are, a tie is shown as the larger
    integer (also below zero), and the display keeps the order of the
    amounts. *)
Theorem Math_round_integers_ties_order :
  (forall z : Z, Math_round (ofZ z) = z) /\
  (forall z : Z, Math_round (ofZ z + Q2Qc (1 # 2)) = (z + 1)%Z) /\
  (forall x y : Qc, x <= y -> (Math_round x <= Math_round y)%Z).
Proof.
  split; [| split].
  - intros z. unfold Math_round. apply Qfloor_unique.
    + apply Qcle_plus_nonneg. discriminate.
    + rewrite ofZ_succ. apply Qclt_minus_iff.
      replace (ofZ z + 1 + - (ofZ z + Q2Qc (1 # 2))) with (Q2Qc (1 # 2));
        [reflexivity |].
      rewrite <- half_plus_half. ring.
  - intros z. unfold Math_round. apply Qfloor_unique.
    + rewrite ofZ_succ, <- half_plus_half.
      replace (ofZ z + (Q2Qc (1 # 2) + Q2Qc (1 # 2)))
        with (ofZ z + Q2Qc (1 # 2) + Q2Qc (1 # 2)) by ring.
      apply Qcle_refl.
    + rewrite !ofZ_succ. apply Qclt_minus_iff.
      replace (ofZ z + 1 + 1 + - (ofZ z + Q2Qc (1 # 2) + Q2Qc (1 # 2)))
        with 1; [reflexivity |].
      rewrite <- half_plus_half. ring.
  - intros x y H. unfold Math_round. apply Qfloor_resp_le.
    apply (Qcplus_le_compat x y _ _ H (Qcle_refl _)).
Qed.

Lemma Math_round_integers_ties_order_witness :
  Math_round (Q2Qc (5 # 2)) = 3%Z /\
  Math_round (- Q2Qc (5 # 2)) = (-2)%Z /\
  (Math_round (Q2Qc (25 # 3)) <= Math_round (Q2Qc (17 # 2)))%Z.
Proof.
  destruct Math_round_integers_ties_order as [_ [Hties Horder]].
  split; [exact (Hties 2%Z) |]. split; [exact (Hties (-3)%Z) |].
  apply Horder. discriminate.
Defined.

(** * The claims that depend on the arithmetic

    The equalities above copy values or repeat the operations of the
    source in the order of the source, so they do not depend on the laws
    of the arithmetic.  The three claims below, as stated, do: one fails
    on a negative baseline, two fail in binary64 by rounding. *)

(** ** C1: the reset branch and a negative baseline *)

(** C1 as stated fails when the baseline is negative: on the default
    inputs with [adCost = -500000] month 1 makes no profit (-720000) and
    the reset branch sets the ad cost of month 2 to -500000. *)
Lemma reset_to_negative_baseline :
  exists rows r1 r2,
    calculateCompoundEffect negativeBaseline 0 = Ok rows /\
    nth_error rows 1 = Some r1 /\
    nth_error rows 2 = Some r2 /\
    CompoundDataItem.profit r1 = - ofZ 720000 /\
    CompoundDataItem.profit r1 <= 0 /\
    CompoundDataItem.adCost r2 = - ofZ 500000 /\
    CompoundDataItem.adCost r2 < 0.
Proof.
  exists (data (stateAt negativeBaseline (passes negativeBaseline))),
         (itemAt negativeBaseline 1 (stateAt negativeBaseline 1)),
         (itemAt negativeBaseline 2 (stateAt negativeBaseline 2)).
  split; [apply calculateCompoundEffect_ok |].
  split; [apply nth_error_data_stateAt; vm_compute; lia |].
  split; [apply nth_error_data_stateAt; vm_compute; lia |].
  split; [apply Qc_is_canon; vm_compute; reflexivity |].
  split; [vm_compute; discriminate |].
  split; [apply Qc_is_canon; vm_compute; reflexivity |].
  vm_compute. reflexivity.
Qed.

(** ** C7: the row formulas in the order of the code *)

(** Whatever holds of the rows already pushed and is kept by one pass
    holds of the rows of the finished loop. *)
Lemma binary64_forLoop_invariant
    (P : Binary64.CompoundDataItem.t -> Prop) (inputs : Binary64.InputValues) :
  (forall (month : float) (st : Binary64.LoopState),
     Forall P (Binary64.data st) ->
     Forall P (Binary64.data (Binary64.loopBody inputs month st))) ->
  forall (fuel : nat) (month : float) (st st' : Binary64.LoopState),
    Forall P (Binary64.data st) ->
    Binary64.forLoop fuel inputs month st = Some st' ->
    Forall P (Binary64.data st').
Proof.
  intros Hbody fuel. induction fuel as [| fuel IH]; intros month st st' Hst Hrun.
  - discriminate.
  - cbn [Binary64.forLoop] in Hrun.
    destruct (PrimFloat.leb month (Binary64.months inputs)).
    + apply (IH _ _ _ (Hbody month st Hst) Hrun).
    + injection Hrun as <-. exact Hst.
Qed.

(** C7 as stated fails in binary64: on the default inputs the profit of
    row 5 is 3095868.2112 (0x1.79e9e1b089a02p+21), and the factored
    formula [revenue * (profitMargin/100) * (1 - affiliateCommission/100)]
    gives the next double, 3095868.2112000003. *)
Lemma factored_profit_fails_in_binary64 :
  exists rows r5,
    Binary64.calculateCompoundEffect 14 Binary64.defaultInputs 0 = Some rows /\
    nth_error rows 5 = Some r5 /\
    Binary64.CompoundDataItem.profit r5 = 0x1.79e9e1b089a02p+21%float /\
    (Binary64.CompoundDataItem.revenue r5 * (60 / 100) * (1 - 20 / 100))%float
      = 0x1.79e9e1b089a03p+21%float /\
    Binary64.CompoundDataItem.profit r5 <>
      (Binary64.CompoundDataItem.revenue r5 * (60 / 100) * (1 - 20 / 100))%float.
Proof.
  eexists. eexists.
  split; [vm_compute; reflexivity |].
  split; [reflexivity |].
  split; [vm_compute; reflexivity |].
  split; [vm_compute; reflexivity |].
  intros H.
  apply (f_equal (fun x => PrimFloat.eqb x 0x1.79e9e1b089a02p+21%float)) in H.
  vm_compute in H. discriminate.
Qed.

(** C7, amended: every row [m >= 1] has [revenue = adCost * roas / 100]
    and [profit = P - P * (affiliateCommission / 100)] with
    [P = revenue * (profitMargin / 100)], each operation as the code
    performs it; this holds of the exact model and of the binary64 loop
    alike.  On the default inputs, in both, row 1 has ad cost 500000,
    profit 720000, cumulative ad cost 0 and cumulative profit 720000, and
    row 2 has ad cost 720000 and revenue 2160000. *)
Theorem row_formulas_in_code_order :
  (forall (inputs : InputValues) (monthlyProfit : Qc),
   exists rows,
     calculateCompoundEffect inputs monthlyProfit = Ok rows /\
     forall (m : nat) (r : CompoundDataItem.t),
       (1 <= m)%nat ->
       nth_error rows m = Some r ->
       CompoundDataItem.revenue r =
         CompoundDataItem.adCost r * roas inputs / 100 /\
       CompoundDataItem.profit r =
         CompoundDataItem.revenue r * (profitMargin inputs / 100)
         - CompoundDataItem.revenue r * (profitMargin inputs / 100)
           * (affiliateCommission inputs / 100)) /\
  (forall monthlyProfit : Qc,
   exists rows r1 r2,
     calculateCompoundEffect defaultInputs monthlyProfit = Ok rows /\
     nth_error rows 1 = Some r1 /\
     nth_error rows 2 = Some r2 /\
     CompoundDataItem.adCost r1 = ofZ 500000 /\
     CompoundDataItem.profit r1 = ofZ 720000 /\
     CompoundDataItem.cumulativeAdCost r1 = 0 /\
     CompoundDataItem.cumulativeProfit r1 = ofZ 720000 /\
     CompoundDataItem.adCost r2 = ofZ 720000 /\
     CompoundDataItem.revenue r2 = ofZ 2160000) /\
  (forall (fuel : nat) (inputs : Binary64.InputValues) (monthlyProfit : float)
          (rows : list Binary64.CompoundDataItem.t)
          (r : Binary64.CompoundDataItem.t),
     Binary64.calculateCompoundEffect fuel inputs monthlyProfit = Some rows ->
     In r rows ->
     PrimFloat.eqb (Binary64.CompoundDataItem.month r) 0 = false ->
     Binary64.CompoundDataItem.revenue r =
       (Binary64.CompoundDataItem.adCost r * Binary64.roas inputs / 100)%float /\
     Binary64.CompoundDataItem.profit r =
       (Binary64.CompoundDataItem.revenue r
        * (Binary64.profitMargin inputs / 100)
        - Binary64.CompoundDataItem.revenue r
          * (Binary64.profitMargin inputs / 100)
          * (Binary64.affiliateCommission inputs / 100))%float) /\
  (exists rows r1 r2,
     Binary64.calculateCompoundEffect 14 Binary64.defaultInputs 0 = Some rows /\
     length rows = 13%nat /\
     nth_error rows 1 = Some r1 /\
     nth_error rows 2 = Some r2 /\
     Binary64.CompoundDataItem.adCost r1 = 500000%float /\
     Binary64.CompoundDataItem.profit r1 = 720000%float /\
     Binary64.CompoundDataItem.cumulativeAdCost r1 = 0%float /\
     Binary64.CompoundDataItem.cumulativeProfit r1 = 720000%float /\
     Binary64.CompoundDataItem.adCost r2 = 720000%float /\
     Binary64.CompoundDataItem.revenue r2 = 2160000%float).
Proof.
  split; [| split; [| split]].
  - intros inputs monthlyProfit.
    exists (data (stateAt inputs (passes inputs))).
    split; [apply calculateCompoundEffect_ok |].
    intros m r Hm Hr. apply nth_error_rows in Hr as [_ ->].
    destruct m as [| m]; [lia |]. split; reflexivity.
  - intros monthlyProfit.
    exists (data (stateAt defaultInputs (passes defaultInputs))),
           (itemAt defaultInputs 1 (stateAt defaultInputs 1)),
           (itemAt defaultInputs 2 (stateAt defaultInputs 2)).
    split; [apply calculateCompoundEffect_ok |].
    split; [apply nth_error_data_stateAt; vm_compute; lia |].
    split; [apply nth_error_data_stateAt; vm_compute; lia |].
    repeat split; apply Qc_is_canon; vm_compute; reflexivity.
  - intros fuel inputs monthlyProfit rows r Hrun Hin.
    unfold Binary64.calculateCompoundEffect in Hrun.
    destruct (Binary64.forLoop fuel inputs 0 (Binary64.initialState inputs))
      as [st' |] eqn:Hloop; [| discriminate].
    injection Hrun as <-. revert r Hin.
    set (P := fun r : Binary64.CompoundDataItem.t =>
      PrimFloat.eqb (Binary64.CompoundDataItem.month r) 0 = false ->
      Binary64.CompoundDataItem.revenue r =
        (Binary64.CompoundDataItem.adCost r * Binary64.roas inputs / 100)%float /\
      Binary64.CompoundDataItem.profit r =
        (Binary64.CompoundDataItem.revenue r
         * (Binary64.profitMargin inputs / 100)
         - Binary64.CompoundDataItem.revenue r
           * (Binary64.profitMargin inputs / 100)
           * (Binary64.affiliateCommission inputs / 100))%float).
    apply (proj1 (Forall_forall P (Binary64.data st'))).
    refine (binary64_forLoop_invariant P inputs _ fuel 0%float
              (Binary64.initialState inputs) st' (Forall_nil P) Hloop).
    intros month st Hst. unfold Binary64.loopBody, P.
    destruct (PrimFloat.eqb month 0) eqn:Hmonth; cbn [Binary64.data];
      apply Forall_app; (split; [exact Hst |]);
      apply Forall_cons; [| apply Forall_nil | | apply Forall_nil];
      cbn [Binary64.CompoundDataItem.month Binary64.CompoundDataItem.revenue
           Binary64.CompoundDataItem.profit Binary64.CompoundDataItem.adCost].
    + intros H. congruence.
    + intros _. split; reflexivity.
  - eexists. eexists. eexists.
    split; [vm_compute; reflexivity |].
    repeat split.
Qed.

Lemma row_formulas_in_code_order_witness :
  (exists rows r2,
     calculateCompoundEffect defaultInputs 0 = Ok rows /\
     nth_error rows 2 = Some r2 /\
     CompoundDataItem.revenue r2 =
       CompoundDataItem.adCost r2 * ofZ 300 / 100 /\
     CompoundDataItem.profit r2 =
       CompoundDataItem.revenue r2 * (ofZ 60 / 100)
       - CompoundDataItem.revenue r2 * (ofZ 60 / 100) * (ofZ 20 / 100)) /\
  (exists rows r5,
     Binary64.calculateCompoundEffect 14 Binary64.defaultInputs 0 = Some rows /\
     nth_error rows 5 = Some r5 /\
     Binary64.CompoundDataItem.profit r5 =
       (Binary64.CompoundDataItem.revenue r5 * (60 / 100)
        - Binary64.CompoundDataItem.revenue r5 * (60 / 100) * (20 / 100))%float).
Proof.
  destruct row_formulas_in_code_order as [Hexact [_ [Hbinary _]]].
  split.
  - destruct (Hexact defaultInputs 0) as [rows [Hrun Hrows]].
    assert (H2 : nth_error rows 2 =
                 Some (itemAt defaultInputs 2 (stateAt defaultInputs 2))).
    { apply (nth_error_run defaultInputs 0 rows 2 Hrun). vm_compute. lia. }
    exists rows, (itemAt defaultInputs 2 (stateAt defaultInputs 2)).
    split; [exact Hrun |]. split; [exact H2 |].
    apply (Hrows 2%nat _ (le_S _ _ (le_n 1)) H2).
  - eexists. eexists.
    split; [vm_compute; reflexivity |].
    split; [reflexivity |].
    refine (proj2 (Hbinary 14%nat Binary64.defaultInputs 0%float _ _ _ _ _)).
    + vm_compute. reflexivity.
    + do 5 right. left. reflexivity.
    + reflexivity.
Defined.

(** ** C9: the accumulators in the order of the code *)

(** C9 as stated fails in binary64: on the default inputs the cumulative
    profit of row 4 is 2149908.48 (0x1.0670a3d70a3d7p+21), and
    [cumulativeRevenue * (profitMargin/100) * (1 - affiliateCommission/100)
    - cumulativeAdCost] gives the next double, 2149908.4800000004. *)
Lemma cumulative_consistency_fails_in_binary64 :
  exists rows r4,
    Binary64.calculateCompoundEffect 14 Binary64.defaultInputs 0 = Some rows /\
    nth_error rows 4 = Some r4 /\
    Binary64.CompoundDataItem.cumulativeProfit r4
      = 0x1.0670a3d70a3d7p+21%float /\
    (Binary64.CompoundDataItem.cumulativeRevenue r4 * (60 / 100)
     * (1 - 20 / 100)
     - Binary64.CompoundDataItem.cumulativeAdCost r4)%float
      = 0x1.0670a3d70a3d8p+21%float /\
    Binary64.CompoundDataItem.cumulativeProfit r4 <>
      (Binary64.CompoundDataItem.cumulativeRevenue r4 * (60 / 100)
       * (1 - 20 / 100)
       - Binary64.CompoundDataItem.cumulativeAdCost r4)%float.
Proof.
  eexists. eexists.
  split; [vm_compute; reflexivity |].
  split; [reflexivity |].
  split; [vm_compute; reflexivity |].
  split; [vm_compute; reflexivity |].
  intros H.
  apply (f_equal (fun x => PrimFloat.eqb x 0x1.0670a3d70a3d7p+21%float)) in H.
  vm_compute in H. discriminate.
Qed.

(** C9, amended: the three accumulators move together, in the order of
    the code.  Row 0 has all three at 0, and from each row to the next
    the cumulative revenue grows by the month's revenue, the cumulative
    ad cost by the month's ad cost and the cumulative profit by the
    month's profit less its ad cost, except at the waived month 1, where
    the same ad cost is left out of both: the cumulative ad cost stays and
    the cumulative profit grows by the whole profit.  On the default
    inputs the binary64 rows 3 and 4 obey the same equations. *)
Theorem cumulative_recurrences :
  (forall (inputs : InputValues) (monthlyProfit : Qc),
   exists rows,
     calculateCompoundEffect inputs monthlyProfit = Ok rows /\
     (forall r0 : CompoundDataItem.t,
        nth_error rows 0 = Some r0 ->
        CompoundDataItem.cumulativeAdCost r0 = 0 /\
        CompoundDataItem.cumulativeRevenue r0 = 0 /\
        CompoundDataItem.cumulativeProfit r0 = 0) /\
     forall (m : nat) (r r' : CompoundDataItem.t),
       nth_error rows m = Some r ->
       nth_error rows (S m) = Some r' ->
       CompoundDataItem.cumulativeRevenue r' =
         CompoundDataItem.cumulativeRevenue r + CompoundDataItem.revenue r' /\
       CompoundDataItem.cumulativeAdCost r' =
         (if (CompoundDataItem.month r' =? 1) && firstMonthFree inputs
          then CompoundDataItem.cumulativeAdCost r
          else CompoundDataItem.cumulativeAdCost r
               + CompoundDataItem.adCost r') /\
       CompoundDataItem.cumulativeProfit r' =
         CompoundDataItem.cumulativeProfit r
         + (if (CompoundDataItem.month r' =? 1) && firstMonthFree inputs
            then CompoundDataItem.profit r'
            else CompoundDataItem.profit r' - CompoundDataItem.adCost r')) /\
  (exists rows r3 r4,
     Binary64.calculateCompoundEffect 14 Binary64.defaultInputs 0 = Some rows /\
     nth_error rows 3 = Some r3 /\
     nth_error rows 4 = Some r4 /\
     Binary64.CompoundDataItem.cumulativeRevenue r4 =
       (Binary64.CompoundDataItem.cumulativeRevenue r3
        + Binary64.CompoundDataItem.revenue r4)%float /\
     Binary64.CompoundDataItem.cumulativeAdCost r4 =
       (Binary64.CompoundDataItem.cumulativeAdCost r3
        + Binary64.CompoundDataItem.adCost r4)%float /\
     Binary64.CompoundDataItem.cumulativeProfit r4 =
       (Binary64.CompoundDataItem.cumulativeProfit r3
        + (Binary64.CompoundDataItem.profit r4
           - Binary64.CompoundDataItem.adCost r4))%float).
Proof.
  split.
  - intros inputs monthlyProfit.
    exists (data (stateAt inputs (passes inputs))).
    split; [apply calculateCompoundEffect_ok |]. split.
    + intros r0 Hr0. apply nth_error_rows in Hr0 as [_ ->]. repeat split.
    + intros m r r' Hr Hr'.
      apply nth_error_rows in Hr as [_ ->].
      apply nth_error_rows in Hr' as [_ ->].
      replace (CompoundDataItem.month
                 (itemAt inputs (S m) (stateAt inputs (S m))))
        with (ofNat (S m)) by reflexivity.
      rewrite ofNat_eqb_1. fold (waived inputs (S m)).
      destruct m as [| m].
      * destruct (waived inputs 1) eqn:Hw;
          cbn [itemAt CompoundDataItem.cumulativeRevenue
               CompoundDataItem.cumulativeAdCost
               CompoundDataItem.cumulativeProfit CompoundDataItem.revenue
               CompoundDataItem.adCost CompoundDataItem.profit];
          rewrite Hw; repeat split.
      * destruct (stateAt_succ_cumulative inputs m) as [Hc [Hv Hp]].
        cbv zeta in Hc, Hv, Hp. rewrite <- Hc, <- Hv, <- Hp.
        set (st := stateAt inputs (S (S m))).
        destruct (waived inputs (S (S m))) eqn:Hw;
          cbn [itemAt CompoundDataItem.cumulativeRevenue
               CompoundDataItem.cumulativeAdCost
               CompoundDataItem.cumulativeProfit CompoundDataItem.revenue
               CompoundDataItem.adCost CompoundDataItem.profit];
          rewrite Hw; repeat split.
  - eexists. eexists. eexists.
    split; [vm_compute; reflexivity |].
    split; [reflexivity |]. split; [reflexivity |].
    repeat split.
Qed.

Lemma cumulative_recurrences_witness :
  exists rows r0 r1 r2,
    calculateCompoundEffect (withMonths (ofZ 3)) 0 = Ok rows /\
    nth_error rows 0 = Some r0 /\
    nth_error rows 1 = Some r1 /\
    nth_error rows 2 = Some r2 /\
    CompoundDataItem.cumulativeAdCost r1 =
      CompoundDataItem.cumulativeAdCost r0 /\
    CompoundDataItem.cumulativeProfit r1 =
      CompoundDataItem.cumulativeProfit r0 + CompoundDataItem.profit r1 /\
    CompoundDataItem.cumulativeAdCost r2 =
      CompoundDataItem.cumulativeAdCost r1 + CompoundDataItem.adCost r2 /\
    CompoundDataItem.cumulativeProfit r2 =
      CompoundDataItem.cumulativeProfit r1
      + (CompoundDataItem.profit r2 - CompoundDataItem.adCost r2).
Proof.
  destruct (proj1 cumulative_recurrences (withMonths (ofZ 3)) 0)
    as [rows [Hrun [_ Hrows]]].
  set (inputs := withMonths (ofZ 3)) in *.
  assert (H0 : nth_error rows 0 = Some (itemAt inputs 0 (stateAt inputs 0))).
  { apply (nth_error_run inputs 0 rows 0 Hrun). vm_compute. lia. }
  assert (H1 : nth_error rows 1 = Some (itemAt inputs 1 (stateAt inputs 1))).
  { apply (nth_error_run inputs 0 rows 1 Hrun). vm_compute. lia. }
  assert (H2 : nth_error rows 2 = Some (itemAt inputs 2 (stateAt inputs 2))).
  { apply (nth_error_run inputs 0 rows 2 Hrun). vm_compute. lia. }
  exists rows, (itemAt inputs 0 (stateAt inputs 0)),
         (itemAt inputs 1 (stateAt inputs 1)),
         (itemAt inputs 2 (stateAt inputs 2)).
  split; [exact Hrun |]. split; [exact H0 |]. split; [exact H1 |].
  split; [exact H2 |].
  destruct (Hrows 0%nat _ _ H0 H1) as [_ [Hcost1 Hprofit1]].
  destruct (Hrows 1%nat _ _ H1 H2) as [_ [Hcost2 Hprofit2]].
  split; [exact Hcost1 |]. split; [exact Hprofit1 |].
  split; [exact Hcost2 | exact Hprofit2].
Defined.

(** ** What exact arithmetic adds

    Over the rationals, where products and sums are not rounded, the two
    closed forms of the specification do hold of the model.  They are
    facts about the formulas, not about the doubles the code computes. *)

(** In exact arithmetic the profit of a row [m >= 1] factors as
    [revenue * (profitMargin/100) * (1 - affiliateCommission/100)]. *)
Lemma exact_arithmetic_row_formula (inputs : InputValues) (m : nat) :
  let r := itemAt inputs (S m) (stateAt inputs (S m)) in
  CompoundDataItem.profit r =
    CompoundDataItem.revenue r * (profitMargin inputs / 100)
    * (1 - affiliateCommission inputs / 100).
Proof. apply monthlyProfitOf_factored. Qed.

(** In exact arithmetic every row satisfies [cumulativeProfit =
    cumulativeRevenue * (profitMargin/100) * (1 - affiliateCommission/100)
    - cumulativeAdCost]. *)
Lemma exact_arithmetic_cumulative_consistency (inputs : InputValues) (m : nat) :
  let r := itemAt inputs m (stateAt inputs m) in
  consistent inputs (CompoundDataItem.cumulativeProfit r)
    (CompoundDataItem.cumulativeRevenue r)
    (CompoundDataItem.cumulativeAdCost r).
Proof.
  cbv zeta. destruct (itemAt_cumulative inputs m) as [Hc [Hv Hp]].
  cbv zeta in Hc, Hv, Hp. rewrite Hc, Hv, Hp.
  apply (stateAt_consistent inputs (S m)).
Qed.

(** * Further properties, in the order of the code *)

(** ** The checkbox and the single-period results *)

(** Ticking the checkbox changes one result only, the net profit: ticked
    it is the profit before ad cost, unticked it is that profit less the
    ad cost; the nine other results are the same. *)
Theorem checkbox_changes_profit_only (inputs : InputValues) :
  exists ticked unticked,
    calculate (onFirstMonthFreeChange inputs true) = Ok ticked /\
    calculate (onFirstMonthFreeChange inputs false) = Ok unticked /\
    profit ticked = profitBeforeAdCost ticked /\
    profit unticked = profitBeforeAdCost unticked - adCost inputs /\
    revenue ticked = revenue unticked /\
    profitBeforeAdCost ticked = profitBeforeAdCost unticked /\
    numberOfSales ticked = numberOfSales unticked /\
    cpa ticked = cpa unticked /\
    roasActual ticked = roasActual unticked /\
    seatCount ticked = seatCount unticked /\
    dailyCost ticked = dailyCost unticked /\
    affiliateAmount ticked = affiliateAmount unticked /\
    profitAmount ticked = profitAmount unticked.
Proof.
  exists (resultsOf (onFirstMonthFreeChange inputs true)),
         (resultsOf (onFirstMonthFreeChange inputs false)).
  split; [apply calculate_ok |]. split; [apply calculate_ok |].
  repeat split.
Qed.

(** With [months >= 1], row 1 of the projection starts from the
    single-period figures of the same run of the effect: it spends the
    baseline, its revenue is the revenue of the results, and its
    cumulative revenue is that revenue added to 0. *)
Theorem first_month_matches_results (inputs : InputValues) :
  1 <= months inputs ->
  exists results rows r1,
    runEffect inputs = Ok (results, rows) /\
    nth_error rows 1 = Some r1 /\
    CompoundDataItem.adCost r1 = adCost inputs /\
    CompoundDataItem.revenue r1 = revenue results /\
    CompoundDataItem.cumulativeRevenue r1 = 0 + revenue results.
Proof.
  intros Hmonths.
  exists (resultsOf inputs), (data (stateAt inputs (passes inputs))),
         (itemAt inputs 1 (stateAt inputs 1)).
  split.
  { unfold runEffect. rewrite calculate_ok. cbn [bind].
    rewrite calculateCompoundEffect_ok. reflexivity. }
  split; [apply nth_error_data_stateAt, one_lt_passes, Hmonths |].
  repeat split.
Qed.

Lemma first_month_matches_results_witness :
  exists results rows r1,
    runEffect defaultInputs = Ok (results, rows) /\
    nth_error rows 1 = Some r1 /\
    CompoundDataItem.revenue r1 = revenue results.
Proof.
  destruct (first_month_matches_results defaultInputs)
    as [results [rows [r1 [Hrun [H1 [_ [Hrev _]]]]]]].
  - discriminate.
  - exists results, rows, r1. split; [exact Hrun |].
    split; [exact H1 | exact Hrev].
Defined.

(** ** How the spend evolves *)

(** The spend on entry to any month when the baseline month makes no
    profit. *)
Lemma currentAdCost_stagnant (inputs : InputValues) (k : nat) :
  monthlyProfitOf inputs (adCost inputs) <= 0 ->
  currentAdCost (stateAt inputs k) = adCost inputs.
Proof.
  intros H. induction k as [| k IH]; [reflexivity |].
  destruct k as [| k]; [reflexivity |].
  change (stateAt inputs (S (S k)))
    with (stepState inputs (S k) (stateAt inputs (S k))).
  cbn [stepState currentAdCost]. rewrite IH.
  apply if_gtb_nonpos, H.
Qed.

(** No compounding without profit: when the profit of row 1 is not
    positive, every later month spends the baseline again and repeats the
    revenue and the profit of row 1. *)
Theorem no_profit_no_compounding (inputs : InputValues) (monthlyProfit : Qc) :
  exists rows,
    calculateCompoundEffect inputs monthlyProfit = Ok rows /\
    forall r1 : CompoundDataItem.t,
      nth_error rows 1 = Some r1 ->
      CompoundDataItem.profit r1 <= 0 ->
      forall (m : nat) (r : CompoundDataItem.t),
        nth_error rows (S m) = Some r ->
        CompoundDataItem.adCost r = adCost inputs /\
        CompoundDataItem.revenue r = CompoundDataItem.revenue r1 /\
        CompoundDataItem.profit r = CompoundDataItem.profit r1.
Proof.
  exists (data (stateAt inputs (passes inputs))).
  split; [apply calculateCompoundEffect_ok |].
  intros r1 Hr1 Hprofit m r Hr.
  apply nth_error_rows in Hr1 as [_ ->]. apply nth_error_rows in Hr as [_ ->].
  change (monthlyProfitOf inputs (adCost inputs) <= 0) in Hprofit.
  cbn [itemAt CompoundDataItem.adCost CompoundDataItem.profit
       CompoundDataItem.revenue].
  rewrite (currentAdCost_stagnant inputs (S m) Hprofit).
  repeat split.
Qed.

Lemma no_profit_no_compounding_witness :
  exists rows r1 r2,
    calculateCompoundEffect (withMonthsRoas (ofZ 2) (- ofZ 300)) 0 = Ok rows /\
    nth_error rows 1 = Some r1 /\
    nth_error rows 2 = Some r2 /\
    CompoundDataItem.profit r1 <= 0 /\
    CompoundDataItem.adCost r2 = ofZ 500000 /\
    CompoundDataItem.profit r2 = CompoundDataItem.profit r1.
Proof.
  destruct (no_profit_no_compounding (withMonthsRoas (ofZ 2) (- ofZ 300)) 0)
    as [rows [Hrun Hrows]].
  set (inputs := withMonthsRoas (ofZ 2) (- ofZ 300)) in *.
  assert (H1 : nth_error rows 1 = Some (itemAt inputs 1 (stateAt inputs 1))).
  { apply (nth_error_run inputs 0 rows 1 Hrun). vm_compute. lia. }
  assert (H2 : nth_error rows 2 = Some (itemAt inputs 2 (stateAt inputs 2))).
  { apply (nth_error_run inputs 0 rows 2 Hrun). vm_compute. lia. }
  assert (Hloss : CompoundDataItem.profit (itemAt inputs 1 (stateAt inputs 1))
                  <= 0) by (vm_compute; discriminate).
  destruct (Hrows _ H1 Hloss 1%nat _ H2) as [Hcost [_ Hprofit]].
  exists rows, (itemAt inputs 1 (stateAt inputs 1)),
         (itemAt inputs 2 (stateAt inputs 2)).
  split; [exact Hrun |]. split; [exact H1 |]. split; [exact H2 |].
  split; [exact Hloss |]. split; [exact Hcost | exact Hprofit].
Defined.

(** ** The accumulators as running totals *)

Lemma tl_data_stateAt (inputs : InputValues) (n : nat) :
  tl (data (stateAt inputs (S n))) =
  map (fun j => itemAt inputs j (stateAt inputs j)) (seq 1 n).
Proof. rewrite data_stateAt. reflexivity. Qed.

(** The accumulators on entry to month [k + 1] are the left-to-right
    totals of the rows of months 1 to [k], with the additions the code
    makes. *)
Lemma stateAt_running_totals (inputs : InputValues) (k : nat) :
  let pushed :=
    map (fun j => itemAt inputs j (stateAt inputs j)) (seq 1 k) in
  cumulativeRevenue (stateAt inputs (S k)) =
    fold_left (fun acc x => acc + CompoundDataItem.revenue x) pushed 0 /\
  cumulativeAdCost (stateAt inputs (S k)) =
    fold_left
      (fun acc x =>
         if (CompoundDataItem.month x =? 1) && firstMonthFree inputs
         then acc else acc + CompoundDataItem.adCost x) pushed 0 /\
  cumulativeProfit (stateAt inputs (S k)) =
    fold_left
      (fun acc x =>
         acc + (if (CompoundDataItem.month x =? 1) && firstMonthFree inputs
                then CompoundDataItem.profit x
                else CompoundDataItem.profit x - CompoundDataItem.adCost x))
      pushed 0.
Proof.
  cbv zeta. induction k as [| k (IHr & IHa & IHp)].
  - repeat split.
  - rewrite seq_S, map_app, !fold_left_app. cbn [map fold_left Nat.add].
    rewrite <- IHr, <- IHa, <- IHp.
    replace (CompoundDataItem.month
               (itemAt inputs (S k) (stateAt inputs (S k))))
      with (ofNat (S k)) by reflexivity.
    rewrite ofNat_eqb_1. fold (waived inputs (S k)).
    change (stateAt inputs (S (S k)))
      with (stepState inputs (S k) (stateAt inputs (S k))).
    set (st := stateAt inputs (S k)).
    cbn [stepState itemAt cumulativeRevenue cumulativeAdCost cumulativeProfit
         CompoundDataItem.cumulativeRevenue CompoundDataItem.cumulativeAdCost
         CompoundDataItem.cumulativeProfit CompoundDataItem.revenue
         CompoundDataItem.adCost CompoundDataItem.profit].
    destruct (waived inputs (S k)); repeat split.
Qed.

(** The accumulators are running totals of the rows, added from left to
    right as the code adds them: over the rows of months 1 to [m], the
    cumulative revenue of row [m] is the total of the revenues, its
    cumulative ad cost the total of the ad costs but for the waived
    month 1, and its cumulative profit the total of the profits less the
    ad costs, the waived month keeping its whole profit. *)
Theorem running_totals (inputs : InputValues) (monthlyProfit : Qc) :
  exists rows,
    calculateCompoundEffect inputs monthlyProfit = Ok rows /\
    forall (m : nat) (r : CompoundDataItem.t),
      nth_error rows m = Some r ->
      CompoundDataItem.cumulativeRevenue r =
        fold_left (fun acc x => acc + CompoundDataItem.revenue x)
          (firstn m (tl rows)) 0 /\
      CompoundDataItem.cumulativeAdCost r =
        fold_left
          (fun acc x =>
             if (CompoundDataItem.month x =? 1) && firstMonthFree inputs
             then acc else acc + CompoundDataItem.adCost x)
          (firstn m (tl rows)) 0 /\
      CompoundDataItem.cumulativeProfit r =
        fold_left
          (fun acc x =>
             acc + (if (CompoundDataItem.month x =? 1) && firstMonthFree inputs
                    then CompoundDataItem.profit x
                    else CompoundDataItem.profit x
                         - CompoundDataItem.adCost x))
          (firstn m (tl rows)) 0.
Proof.
  exists (data (stateAt inputs (passes inputs))).
  split; [apply calculateCompoundEffect_ok |].
  intros m r Hr. apply nth_error_rows in Hr as [Hm ->].
  destruct (passes inputs) as [| n] eqn:Hn; [lia |].
  rewrite tl_data_stateAt, firstn_map, firstn_seq_le by lia.
  destruct (itemAt_cumulative inputs m) as [Hc [Hv Hp]].
  cbv zeta in Hc, Hv, Hp. rewrite Hc, Hv, Hp.
  apply stateAt_running_totals.
Qed.

Lemma running_totals_witness :
  exists rows r1 r2 r3,
    calculateCompoundEffect (withMonths (ofZ 3)) 0 = Ok rows /\
    nth_error rows 1 = Some r1 /\
    nth_error rows 2 = Some r2 /\
    nth_error rows 3 = Some r3 /\
    CompoundDataItem.cumulativeRevenue r3 =
      0 + CompoundDataItem.revenue r1 + CompoundDataItem.revenue r2
      + CompoundDataItem.revenue r3 /\
    CompoundDataItem.cumulativeAdCost r3 =
      0 + CompoundDataItem.adCost r2 + CompoundDataItem.adCost r3.
Proof.
  destruct (running_totals (withMonths (ofZ 3)) 0) as [rows [Hrun Hrows]].
  set (inputs := withMonths (ofZ 3)) in *.
  assert (H1 : nth_error rows 1 = Some (itemAt inputs 1 (stateAt inputs 1))).
  { apply (nth_error_run inputs 0 rows 1 Hrun). vm_compute. lia. }
  assert (H2 : nth_error rows 2 = Some (itemAt inputs 2 (stateAt inputs 2))).
  { apply (nth_error_run inputs 0 rows 2 Hrun). vm_compute. lia. }
  assert (H3 : nth_error rows 3 = Some (itemAt inputs 3 (stateAt inputs 3))).
  { apply (nth_error_run inputs 0 rows 3 Hrun). vm_compute. lia. }
  exists rows, (itemAt inputs 1 (stateAt inputs 1)),
         (itemAt inputs 2 (stateAt inputs 2)),
         (itemAt inputs 3 (stateAt inputs 3)).
  split; [exact Hrun |]. split; [exact H1 |]. split; [exact H2 |].
  split; [exact H3 |].
  destruct (Hrows 3%nat _ H3) as [Hrev [Hcost _]].
  assert (Hrows3 : rows = data (stateAt inputs (passes inputs))).
  { pose proof (calculateCompoundEffect_ok inputs 0) as Hok. congruence. }
  rewrite Hrows3 in Hrev, Hcost.
  split; [exact Hrev | exact Hcost].
Defined.

(** ** The checkbox and the projection *)

(** The spend and the cumulative revenue do not depend on the checkbox. *)
Lemma checkbox_spend (inputs : InputValues) (k : nat) :
  currentAdCost (stateAt (onFirstMonthFreeChange inputs true) k) =
    currentAdCost (stateAt (onFirstMonthFreeChange inputs false) k) /\
  cumulativeRevenue (stateAt (onFirstMonthFreeChange inputs true) k) =
    cumulativeRevenue (stateAt (onFirstMonthFreeChange inputs false) k).
Proof.
  induction k as [| k [IHs IHr]]; [split; reflexivity |].
  destruct k as [| k]; [split; reflexivity |].
  change (stateAt (onFirstMonthFreeChange inputs true) (S (S k)))
    with (stepState (onFirstMonthFreeChange inputs true) (S k)
            (stateAt (onFirstMonthFreeChange inputs true) (S k))).
  change (stateAt (onFirstMonthFreeChange inputs false) (S (S k)))
    with (stepState (onFirstMonthFreeChange inputs false) (S k)
            (stateAt (onFirstMonthFreeChange inputs false) (S k))).
  cbn [stepState itemAt currentAdCost cumulativeRevenue
       CompoundDataItem.cumulativeRevenue].
  rewrite IHs, IHr. split; reflexivity.
Qed.

(** The checkbox changes the two cumulative columns only: the ticked and
    the unticked projection have the same length and, row by row, the
    same month, ad cost, revenue, profit and cumulative revenue.  At
    month 1 the ticked one leaves the cumulative ad cost at 0 and adds the
    whole profit to the cumulative profit, where the unticked one adds
    the ad cost to the one and the profit less the ad cost to the other. *)
Theorem checkbox_changes_cumulatives_only (inputs : InputValues)
    (monthlyProfit : Qc) :
  exists ticked unticked,
    calculateCompoundEffect (onFirstMonthFreeChange inputs true)
      monthlyProfit = Ok ticked /\
    calculateCompoundEffect (onFirstMonthFreeChange inputs false)
      monthlyProfit = Ok unticked /\
    length ticked = length unticked /\
    (forall (m : nat) (r r' : CompoundDataItem.t),
       nth_error ticked m = Some r ->
       nth_error unticked m = Some r' ->
       CompoundDataItem.month r = CompoundDataItem.month r' /\
       CompoundDataItem.adCost r = CompoundDataItem.adCost r' /\
       CompoundDataItem.revenue r = CompoundDataItem.revenue r' /\
       CompoundDataItem.profit r = CompoundDataItem.profit r' /\
       CompoundDataItem.cumulativeRevenue r =
         CompoundDataItem.cumulativeRevenue r') /\
    forall r r' : CompoundDataItem.t,
      nth_error ticked 1 = Some r ->
      nth_error unticked 1 = Some r' ->
      CompoundDataItem.cumulativeAdCost r = 0 /\
      CompoundDataItem.cumulativeAdCost r' = 0 + adCost inputs /\
      CompoundDataItem.cumulativeProfit r = 0 + CompoundDataItem.profit r /\
      CompoundDataItem.cumulativeProfit r' =
        0 + (CompoundDataItem.profit r' - adCost inputs).
Proof.
  exists (data (stateAt (onFirstMonthFreeChange inputs true)
                  (passes (onFirstMonthFreeChange inputs true)))),
         (data (stateAt (onFirstMonthFreeChange inputs false)
                  (passes (onFirstMonthFreeChange inputs false)))).
  split; [apply calculateCompoundEffect_ok |].
  split; [apply calculateCompoundEffect_ok |].
  split; [rewrite !length_data_stateAt; reflexivity |].
  split.
  - intros m r r' Hr Hr'.
    apply nth_error_rows in Hr as [_ ->].
    apply nth_error_rows in Hr' as [_ ->].
    destruct (checkbox_spend inputs m) as [Hspend Hrev].
    destruct m as [| m];
      cbn [itemAt CompoundDataItem.month CompoundDataItem.adCost
           CompoundDataItem.revenue CompoundDataItem.profit
           CompoundDataItem.cumulativeRevenue];
      rewrite Hspend, ?Hrev; repeat split.
  - intros r r' Hr Hr'.
    apply nth_error_rows in Hr as [_ ->].
    apply nth_error_rows in Hr' as [_ ->].
    repeat split.
Qed.

Lemma checkbox_changes_cumulatives_only_witness :
  exists ticked unticked r r',
    calculateCompoundEffect (onFirstMonthFreeChange defaultInputs true) 0
      = Ok ticked /\
    calculateCompoundEffect (onFirstMonthFreeChange defaultInputs false) 0
      = Ok unticked /\
    nth_error ticked 12 = Some r /\
    nth_error unticked 12 = Some r' /\
    CompoundDataItem.adCost r = CompoundDataItem.adCost r' /\
    CompoundDataItem.cumulativeRevenue r =
      CompoundDataItem.cumulativeRevenue r'.
Proof.
  destruct (checkbox_changes_cumulatives_only defaultInputs 0)
    as [ticked [unticked [Hrun [Hrun' [_ [Hrows _]]]]]].
  set (a := onFirstMonthFreeChange defaultInputs true) in *.
  set (b := onFirstMonthFreeChange defaultInputs false) in *.
  assert (H : nth_error ticked 12 = Some (itemAt a 12 (stateAt a 12))).
  { apply (nth_error_run a 0 ticked 12 Hrun). vm_compute. lia. }
  assert (H' : nth_error unticked 12 = Some (itemAt b 12 (stateAt b 12))).
  { apply (nth_error_run b 0 unticked 12 Hrun'). vm_compute. lia. }
  destruct (Hrows 12%nat _ _ H H') as [_ [Hcost [_ [_ Hrev]]]].
  exists ticked, unticked, (itemAt a 12 (stateAt a 12)),
         (itemAt b 12 (stateAt b 12)).
  split; [exact Hrun |]. split; [exact Hrun' |].
  split; [exact H |]. split; [exact H' |].
  split; [exact Hcost | exact Hrev].
Defined.
